(** * Trade analytics aggregation: [calculateUserAnalytics]

    A shallow embedding of the aggregation routine of
    [src/components/Analytics/UserAnalyticsPage.tsx] and the properties its
    specification states about it.

    JavaScript numbers are IEEE 754 binary64 values, so the monetary and
    percentage quantities are Rocq's primitive [float]s: the same format,
    the same rounding, the same NaN and infinity behaviour.  Quantities that
    the program only ever counts in (array lengths, streak counters) are
    natural numbers; they are converted to [float] where the program divides
    by them. *)

From Stdlib Require Import String Floats ZArith Arith Lia Bool List.
Import ListNotations.

Set Implicit Arguments.

(** ** JavaScript numbers and the [Math] functions the routine calls *)

Module JS.

Open Scope float_scope.

(** [x > y] on numbers; false as soon as one side is NaN. *)
Definition gtb (x y : float) : bool := y <? x.

(** The number held by an array's [length]: a non-negative integer below
    2^32, which binary64 represents exactly. *)
Definition Number_of_nat (n : nat) : float :=
  of_uint63 (Uint63.of_Z (Z.of_nat n)).

Definition Math_abs (x : float) : float := abs x.

Definition Math_sqrt (x : float) : float := sqrt x.

(** [+0] as opposed to [-0]. *)
Definition is_pos_zero (x : float) : bool := is_zero x && negb (get_sign x).

Definition is_neg_zero (x : float) : bool := is_zero x && get_sign x.

(** One step of [Math.max]: NaN is contagious, and [+0] ranks above [-0]. *)
Definition max_step (highest number : float) : float :=
  if is_nan highest then highest
  else if is_nan number then number
  else if gtb number highest then number
  else if is_pos_zero number && is_neg_zero highest then number
  else highest.

(** [Math.max(...values)]: the largest argument, [-Infinity] for none. *)
Definition Math_max (values : list float) : float :=
  fold_left max_step values neg_infinity.

(** [array.reduce((sum, x) => sum + f(x), 0)]. *)
Definition reduce_sum {A : Type} (f : A -> float) (array : list A) : float :=
  fold_left (fun sum x => sum + f x) array 0.

End JS.

Import JS.
Open Scope float_scope.

Notation "x >? y" := (gtb x y) (at level 70, no associativity) : float_scope.

(** ** Data model *)

(** Modelled from the spec: the [Trade] and [TradingSession] types are
    declared in [src/types], which is not part of the sources at hand.  The
    records keep the fields the aggregation reads.  [entry_side] is the
    string stored with the trade (['Long'], ['Short']); the comparison the
    program makes is on that string. *)
Record Trade : Type := mkTrade {
  profit_loss : float;
  roi : float;
  entry_side : string
}.

Record TradingSession : Type := mkSession {
  current_capital : float
}.

Inductive RiskLevel : Type := Low | Moderate | High.

Record UserAnalytics : Type := mkUserAnalytics {
  sharpeRatio : float;
  maxDrawdown : float;
  maxDrawdownAmount : float;
  profitFactor : float;
  totalTrades : nat;
  winRate : float;
  totalPnL : float;
  longTrades : nat;
  shortTrades : nat;
  avgHoldTime : string;
  bestTime : string;
  avgRiskPerTrade : float;
  maxRisk : float;
  bestStreak : nat;
  worstStreak : nat;
  riskLevel : RiskLevel;
  activeCapital : float
}.

(** ** The two loops, as folds over their mutable locals *)

(** Locals of the drawdown loop. *)
Record DrawdownState : Type := mkDrawdownState {
  dd_runningPnL : float;
  dd_peak : float;
  dd_maxDrawdown : float;
  dd_maxDrawdownAmount : float
}.

Definition drawdownInit : DrawdownState :=
  mkDrawdownState 0 0 0 0.

(** Body of the first [trades.forEach]. *)
Definition drawdownStep (st : DrawdownState) (trade : Trade) : DrawdownState :=
  let runningPnL := dd_runningPnL st + profit_loss trade in
  let peak := if runningPnL >? dd_peak st then runningPnL else dd_peak st in
  let drawdown := peak - runningPnL in
  if drawdown >? dd_maxDrawdownAmount st then
    mkDrawdownState runningPnL peak
      (if peak >? 0 then (drawdown / peak) * 100 else 0)
      drawdown
  else
    mkDrawdownState runningPnL peak (dd_maxDrawdown st) (dd_maxDrawdownAmount st).

Definition drawdownLoop (trades : list Trade) : DrawdownState :=
  fold_left drawdownStep trades drawdownInit.

(** Locals of the streak loop ([currentStreak] is declared by the program
    and never read or written again, so it carries no state). *)
Record StreakState : Type := mkStreakState {
  st_bestStreak : nat;
  st_worstStreak : nat;
  st_currentWinStreak : nat;
  st_currentLossStreak : nat
}.

Definition streakInit : StreakState :=
  mkStreakState 0 0 0 0.

(** Body of the second [trades.forEach]. *)
Definition streakStep (st : StreakState) (trade : Trade) : StreakState :=
  if profit_loss trade >? 0 then
    let currentWinStreak := S (st_currentWinStreak st) in
    mkStreakState (Nat.max (st_bestStreak st) currentWinStreak)
                  (st_worstStreak st) currentWinStreak 0
  else
    let currentLossStreak := S (st_currentLossStreak st) in
    mkStreakState (st_bestStreak st)
                  (Nat.max (st_worstStreak st) currentLossStreak)
                  0 currentLossStreak.

Definition streakLoop (trades : list Trade) : StreakState :=
  fold_left streakStep trades streakInit.

(** ** The aggregation *)

Definition isLong (t : Trade) : bool := String.eqb (entry_side t) "Long".
Definition isShort (t : Trade) : bool := String.eqb (entry_side t) "Short".

Definition sessionsCapital (sessions : list TradingSession) : float :=
  reduce_sum current_capital sessions.

Section Aggregation.

(** [Math.pow]: ECMAScript leaves its result implementation-approximated,
    so the routine is embedded for an arbitrary one. *)
Variable Math_pow : float -> float -> float.

Definition calculateUserAnalytics
    (sessions : list TradingSession) (trades : list Trade) : UserAnalytics :=
  if Nat.eqb (length trades) 0 then
    {| sharpeRatio := 0;
       maxDrawdown := 0;
       maxDrawdownAmount := 0;
       profitFactor := 0;
       totalTrades := 0;
       winRate := 0;
       totalPnL := 0;
       longTrades := 0;
       shortTrades := 0;
       avgHoldTime := "0h";
       bestTime := "N/A";
       avgRiskPerTrade := 0;
       maxRisk := 0;
       bestStreak := 0;
       worstStreak := 0;
       riskLevel := Low;
       activeCapital := sessionsCapital sessions |}
  else
    let totalPnL := reduce_sum profit_loss trades in
    let winningTrades := filter (fun trade => profit_loss trade >? 0) trades in
    let losingTrades := filter (fun trade => profit_loss trade <? 0) trades in
    let totalProfit := reduce_sum profit_loss winningTrades in
    let totalLoss := Math_abs (reduce_sum profit_loss losingTrades) in
    let profitFactor :=
      if totalLoss >? 0 then totalProfit / totalLoss
      else if totalProfit >? 0 then 999 else 0 in
    let winRate :=
      (Number_of_nat (length winningTrades) / Number_of_nat (length trades)) * 100 in
    let dd := drawdownLoop trades in
    let maxDrawdown := dd_maxDrawdown dd in
    let maxDrawdownAmount := dd_maxDrawdownAmount dd in
    let returns := map roi trades in
    let avgReturn :=
      reduce_sum (fun r => r) returns / Number_of_nat (length returns) in
    let stdDev :=
      Math_sqrt (reduce_sum (fun r => Math_pow (r - avgReturn) 2) returns
                 / Number_of_nat (length returns)) in
    let sharpeRatio := if stdDev >? 0 then avgReturn / stdDev else 0 in
    let streaks := streakLoop trades in
    let avgRiskPerTrade :=
      reduce_sum (fun trade => Math_abs (profit_loss trade)) trades
      / Number_of_nat (length trades) in
    let maxRisk := Math_max (map (fun trade => Math_abs (profit_loss trade)) trades) in
    let riskLevel :=
      if maxDrawdown >? 20 then High
      else if maxDrawdown >? 10 then Moderate
      else Low in
    {| sharpeRatio := sharpeRatio;
       maxDrawdown := maxDrawdown;
       maxDrawdownAmount := maxDrawdownAmount;
       profitFactor := profitFactor;
       totalTrades := length trades;
       winRate := winRate;
       totalPnL := totalPnL;
       longTrades := length (filter isLong trades);
       shortTrades := length (filter isShort trades);
       avgHoldTime := "2.5h";
       bestTime := "Morning";
       avgRiskPerTrade := avgRiskPerTrade;
       maxRisk := maxRisk;
       bestStreak := st_bestStreak streaks;
       worstStreak := st_worstStreak streaks;
       riskLevel := riskLevel;
       activeCapital := sessionsCapital sessions |}.

End Aggregation.

(** ** The aggregation with its exception and every division watched

    The one exception the routine can raise comes from
    [Math.max(...array)]: the spread passes one argument per trade, and an
    engine throws [RangeError] when a call has more arguments than it
    accepts.  JavaScript's [/], on the other hand, never raises: a zero
    divisor yields an infinity or NaN, and [Math.max()] of nothing yields
    [-Infinity].  To state when the routine returns and that it never
    divides by zero, the same routine is written once more in the error
    monad below: the spread raises beyond the engine's limit, and every [/]
    of the source is replaced by a division that fails on a zero divisor.
    A divisor that is an array's [length] is zero exactly when the array is
    empty. *)

Inductive Fault : Type := DivisionByZero | MaxOfNothing | RangeError.

Inductive Outcome (A : Type) : Type :=
| Ok : A -> Outcome A
| Raise : Fault -> Outcome A.

Arguments Raise {A} _.

Definition bind {A B : Type} (c : Outcome A) (k : A -> Outcome B) : Outcome B :=
  match c with
  | Ok a => k a
  | Raise e => Raise e
  end.

Declare Scope outcome_scope.
Delimit Scope outcome_scope with outcome.
Notation "x <- c ;; k" := (bind c (fun x => k))
  (at level 61, c at next level, right associativity) : outcome_scope.
Open Scope outcome_scope.

Definition watched_div (x y : float) : Outcome float :=
  if is_zero y then Raise DivisionByZero else Ok (x / y).

Definition watched_div_length (x : float) (n : nat) : Outcome float :=
  match n with
  | O => Raise DivisionByZero
  | S _ => Ok (x / Number_of_nat n)
  end.

(** [Math.max(...values)] on an engine that accepts at most
    [argumentLimit] arguments in a call. *)
Definition watched_max (argumentLimit : nat) (values : list float)
  : Outcome float :=
  if Nat.ltb argumentLimit (length values) then Raise RangeError
  else
    match values with
    | [] => Raise MaxOfNothing
    | _ :: _ => Ok (Math_max values)
    end.

Definition drawdownStep_watched (st : DrawdownState) (trade : Trade)
  : Outcome DrawdownState :=
  let runningPnL := dd_runningPnL st + profit_loss trade in
  let peak := if runningPnL >? dd_peak st then runningPnL else dd_peak st in
  let drawdown := peak - runningPnL in
  if drawdown >? dd_maxDrawdownAmount st then
    pct <- (if peak >? 0
            then (q <- watched_div drawdown peak ;; Ok (q * 100))
            else Ok 0) ;;
    Ok (mkDrawdownState runningPnL peak pct drawdown)
  else
    Ok (mkDrawdownState runningPnL peak (dd_maxDrawdown st) (dd_maxDrawdownAmount st)).

Fixpoint drawdownLoop_watched (st : DrawdownState) (trades : list Trade)
  : Outcome DrawdownState :=
  match trades with
  | [] => Ok st
  | trade :: rest =>
      st' <- drawdownStep_watched st trade ;;
      drawdownLoop_watched st' rest
  end.

Section WatchedAggregation.

(** The largest number of arguments the engine accepts in one call. *)
Variable argumentLimit : nat.

Variable Math_pow : float -> float -> float.

Definition calculateUserAnalytics_watched
    (sessions : list TradingSession) (trades : list Trade)
  : Outcome UserAnalytics :=
  if Nat.eqb (length trades) 0 then
    Ok (calculateUserAnalytics Math_pow sessions [])
  else
    let totalPnL := reduce_sum profit_loss trades in
    let winningTrades := filter (fun trade => profit_loss trade >? 0) trades in
    let losingTrades := filter (fun trade => profit_loss trade <? 0) trades in
    let totalProfit := reduce_sum profit_loss winningTrades in
    let totalLoss := Math_abs (reduce_sum profit_loss losingTrades) in
    profitFactor <-
      (if totalLoss >? 0 then watched_div totalProfit totalLoss
       else if totalProfit >? 0 then Ok 999 else Ok 0) ;;
    winFraction <-
      watched_div_length (Number_of_nat (length winningTrades)) (length trades) ;;
    let winRate := winFraction * 100 in
    dd <- drawdownLoop_watched drawdownInit trades ;;
    let maxDrawdown := dd_maxDrawdown dd in
    let maxDrawdownAmount := dd_maxDrawdownAmount dd in
    let returns := map roi trades in
    avgReturn <-
      watched_div_length (reduce_sum (fun r => r) returns) (length returns) ;;
    variance <-
      watched_div_length
        (reduce_sum (fun r => Math_pow (r - avgReturn) 2) returns)
        (length returns) ;;
    let stdDev := Math_sqrt variance in
    sharpeRatio <-
      (if stdDev >? 0 then watched_div avgReturn stdDev else Ok 0) ;;
    let streaks := streakLoop trades in
    avgRiskPerTrade <-
      watched_div_length
        (reduce_sum (fun trade => Math_abs (profit_loss trade)) trades)
        (length trades) ;;
    maxRisk <-
      watched_max argumentLimit
        (map (fun trade => Math_abs (profit_loss trade)) trades) ;;
    let riskLevel :=
      if maxDrawdown >? 20 then High
      else if maxDrawdown >? 10 then Moderate
      else Low in
    Ok {| sharpeRatio := sharpeRatio;
          maxDrawdown := maxDrawdown;
          maxDrawdownAmount := maxDrawdownAmount;
          profitFactor := profitFactor;
          totalTrades := length trades;
          winRate := winRate;
          totalPnL := totalPnL;
          longTrades := length (filter isLong trades);
          shortTrades := length (filter isShort trades);
          avgHoldTime := "2.5h";
          bestTime := "Morning";
          avgRiskPerTrade := avgRiskPerTrade;
          maxRisk := maxRisk;
          bestStreak := st_bestStreak streaks;
          worstStreak := st_worstStreak streaks;
          riskLevel := riskLevel;
          activeCapital := sessionsCapital sessions |}.

End WatchedAggregation.

(** ** The statistics as the specification words them

    Each definition below follows the specification's sentence for one
    statistic; the theorems compare it with what [calculateUserAnalytics]
    computes. *)

Module Spec.

(** Left-to-right sum starting from zero. *)
Definition sum (xs : list float) : float := fold_left add xs 0.

(** Number of elements satisfying [p]. *)
Fixpoint count {A : Type} (p : A -> bool) (xs : list A) : nat :=
  match xs with
  | [] => O
  | x :: rest => (if p x then 1 else 0) + count p rest
  end.

(** A trade wins when its P&L is positive, and loses when it is negative. *)
Definition isWin (t : Trade) : bool := profit_loss t >? 0.
Definition isLoss (t : Trade) : bool := profit_loss t <? 0.

(** *** Drawdown *)

(** Running cumulative P&L after each trade, starting from [acc]. *)
Fixpoint cumulative (acc : float) (pnl : list float) : list float :=
  match pnl with
  | [] => []
  | p :: rest => (acc + p) :: cumulative (acc + p) rest
  end.

(** Running peak after each trade: the largest cumulative value seen so
    far, starting from [pk]. *)
Fixpoint runningPeak (pk : float) (running : list float) : list float :=
  match running with
  | [] => []
  | r :: rest =>
      let pk' := if r >? pk then r else pk in
      pk' :: runningPeak pk' rest
  end.

(** Percentage of a decline [drawdown] from [peak]. *)
Definition percentOfPeak (drawdown peak : float) : float :=
  if peak >? 0 then drawdown / peak * 100 else 0.

(** The deepest decline among [(peak, running)] steps: a step replaces the
    best seen so far only when its drawdown exceeds it. *)
Fixpoint deepest (best : float * float) (steps : list (float * float))
  : float * float :=
  match steps with
  | [] => best
  | (pk, r) :: rest =>
      let drawdown := pk - r in
      if drawdown >? fst best
      then deepest (drawdown, percentOfPeak drawdown pk) rest
      else deepest best rest
  end.

(** (maxDrawdownAmount, maxDrawdownPercent) of a P&L sequence. *)
Definition drawdown (pnl : list float) : float * float :=
  let running := cumulative 0 pnl in
  deepest (0, 0) (combine (runningPeak 0 running) running).

(** *** Streaks *)

(** Value of the win-run counter after each outcome ([true] is a win). *)
Fixpoint winRuns (current : nat) (outcomes : list bool) : list nat :=
  match outcomes with
  | [] => []
  | o :: rest =>
      let c := if o then S current else O in
      c :: winRuns c rest
  end.

(** Value of the loss-run counter after each outcome. *)
Fixpoint lossRuns (current : nat) (outcomes : list bool) : list nat :=
  match outcomes with
  | [] => []
  | o :: rest =>
      let c := if o then O else S current in
      c :: lossRuns c rest
  end.

Definition bestStreak (outcomes : list bool) : nat :=
  list_max (winRuns 0 outcomes).

Definition worstStreak (outcomes : list bool) : nat :=
  list_max (lossRuns 0 outcomes).

(** *** Profit factor and win rate *)

Definition sentinel : float := 999.

Definition grossProfit (trades : list Trade) : float :=
  sum (map profit_loss (filter isWin trades)).

Definition grossLoss (trades : list Trade) : float :=
  abs (sum (map profit_loss (filter isLoss trades))).

Definition profitFactor (trades : list Trade) : float :=
  if grossLoss trades >? 0 then grossProfit trades / grossLoss trades
  else if grossProfit trades >? 0 then sentinel
  else 0.

Definition winRate (trades : list Trade) : float :=
  Number_of_nat (count isWin trades) / Number_of_nat (length trades) * 100.

(** *** Sharpe ratio *)

Section Sharpe.

Variable Math_pow : float -> float -> float.

Definition mean (xs : list float) : float :=
  sum xs / Number_of_nat (length xs).

(** Population standard deviation: the squared deviations from the mean
    are summed and divided by the count. *)
Definition populationStdDev (xs : list float) : float :=
  sqrt (sum (map (fun x => Math_pow (x - mean xs) 2) xs)
        / Number_of_nat (length xs)).

End Sharpe.

(** *** Risk level *)

Definition riskLevelOf (maxDrawdownPercent : float) : RiskLevel :=
  if maxDrawdownPercent >? 20 then High
  else if maxDrawdownPercent >? 10 then Moderate
  else Low.

End Spec.

(** ** Finite numbers *)




(** The result with its [activeCapital] overwritten. *)
Definition withActiveCapital (c : float) (r : UserAnalytics) : UserAnalytics :=
  {| sharpeRatio := sharpeRatio r;
     maxDrawdown := maxDrawdown r;
     maxDrawdownAmount := maxDrawdownAmount r;
     profitFactor := profitFactor r;
     totalTrades := totalTrades r;
     winRate := winRate r;
     totalPnL := totalPnL r;
     longTrades := longTrades r;
     shortTrades := shortTrades r;
     avgHoldTime := avgHoldTime r;
     bestTime := bestTime r;
     avgRiskPerTrade := avgRiskPerTrade r;
     maxRisk := maxRisk r;
     bestStreak := bestStreak r;
     worstStreak := worstStreak r;
     riskLevel := riskLevel r;
     activeCapital := c |}.

(** A [Math.pow] that squares by one multiplication, for running the
    routine on concrete inputs. *)
Definition pow_by_product (base exponent : float) : float :=
  if exponent =? 2 then base * base else nan.

(** ** Promises and thrown values *)

From Stdlib Require Import Ascii.

(** What a [catch] receives: an [Error] with its message, or any other
    value (which [error instanceof Error] tells apart). *)
Inductive Thrown : Type :=
| ErrorWith : string -> Thrown
| OtherValue : Thrown.

(** A settled promise. *)
Inductive Attempt (A : Type) : Type :=
| Resolved : A -> Attempt A
| Rejected : Thrown -> Attempt A.

Arguments Rejected {A} _.

(** [await Promise.all(promises)]: the array of results when every promise
    resolves, a rejection as soon as one rejects. *)
Fixpoint Promise_all {A : Type} (promises : list (Attempt A)) : Attempt (list A) :=
  match promises with
  | [] => Resolved []
  | Rejected e :: _ => Rejected e
  | Resolved a :: rest =>
      match Promise_all rest with
      | Resolved results => Resolved (a :: results)
      | Rejected e => Rejected e
      end
  end.

(** A string is truthy when it is present and not empty. *)
Definition truthy_string (s : option string) : bool :=
  match s with
  | Some s => negb (String.eqb s "")
  | None => false
  end.

(** [text || fallback]. *)
Definition or_else (s : option string) (fallback : string) : string :=
  match s with
  | Some v => if String.eqb v "" then fallback else v
  | None => fallback
  end.

(** A number is truthy when it is neither zero nor NaN. *)
Definition truthy_number (x : float) : bool :=
  negb (is_zero x) && negb (is_nan x).

(** [s.split(sep)[0]]: what precedes the first separator. *)
Fixpoint before_separator (sep : ascii) (s : string) : string :=
  match s with
  | EmptyString => EmptyString
  | String c rest =>
      if Ascii.eqb c sep then EmptyString
      else String c (before_separator sep rest)
  end.

(** ** The rest of the analytics page ([UserAnalyticsPage.tsx]) *)

Module Page.

(** The signed-in user, as far as the page reads it. *)
Record UserMetadata : Type := mkUserMetadata {
  username : option string;
  display_name : option string
}.

Record User : Type := mkUser {
  user_metadata : option UserMetadata;
  email : option string
}.

(** [user?.user_metadata?.username] and its sibling. *)
Definition metadata_field (field : UserMetadata -> option string)
    (user : option User) : option string :=
  match user with
  | Some u =>
      match user_metadata u with
      | Some m => field m
      | None => None
      end
  | None => None
  end.

(** [user?.email?.split('@')[0]]. *)
Definition email_local_part (user : option User) : option string :=
  match user with
  | Some u =>
      match email u with
      | Some e => Some (before_separator "@"%char e)
      | None => None
      end
  | None => None
  end.

Definition getUserDisplayName (user : option User) : string :=
  if truthy_string (metadata_field username user) then
    match metadata_field username user with Some s => s | None => "" end
  else if truthy_string (metadata_field display_name user) then
    match metadata_field display_name user with Some s => s | None => "" end
  else if truthy_string (email_local_part user) then
    match email_local_part user with Some s => s | None => "" end
  else "User".

(** A session and a trade as the trading service delivers them: the fields
    the aggregation reads, with the identifier and the timestamp the page
    reads besides. *)
Record SessionRow : Type := mkSessionRow {
  id : string;
  session_fields : TradingSession
}.

Record TradeRow : Type := mkTradeRow {
  created_at : string;
  trade_fields : Trade
}.

(** The component's state. *)
Record PageState : Type := mkPageState {
  sessions : list SessionRow;
  allTrades : list TradeRow;
  analytics : option UserAnalytics;
  loading : bool
}.

Definition setSessions (v : list SessionRow) (st : PageState) : PageState :=
  mkPageState v (allTrades st) (analytics st) (loading st).

Definition setAllTrades (v : list TradeRow) (st : PageState) : PageState :=
  mkPageState (sessions st) v (analytics st) (loading st).

Definition setAnalytics (v : option UserAnalytics) (st : PageState) : PageState :=
  mkPageState (sessions st) (allTrades st) v (loading st).

Definition setLoading (v : bool) (st : PageState) : PageState :=
  mkPageState (sessions st) (allTrades st) (analytics st) v.

(** One point of the cumulative P&L chart. *)
Record PerformancePoint : Type := mkPerformancePoint {
  pp_trade : nat;
  pp_cumulative : float;
  pp_daily : float;
  pp_date : string
}.

(** [array.reduce((acc, x, index) => f(acc, x, index), init)]. *)
Fixpoint reduce_indexed {A B : Type} (f : B -> A -> nat -> B)
    (array : list A) (index : nat) (acc : B) : B :=
  match array with
  | [] => acc
  | x :: rest => reduce_indexed f rest (S index) (f acc x index)
  end.

Section PageBody.

(** The largest number of arguments the engine accepts in one call. *)
Variable argumentLimit : nat.

Variable Math_pow : float -> float -> float.

(** The trading service: [getSessions(user.id)] and
    [getTrades(session.id)], each a promise. *)
Variable getSessions : Attempt (list SessionRow).
Variable getTrades : string -> Attempt (list TradeRow).

(** [new Date(created_at).toLocaleDateString()]: a label that depends on
    the timestamp and on the browser's locale. *)
Variable toLocaleDateString : string -> string.

(** [loadUserData]: the state it leaves behind.  The [try] stops at the
    first rejected promise, or at the exception of the aggregation;
    [finally] always runs. *)
Definition loadUserData (st : PageState) : PageState :=
  let st := setLoading true st in
  let st :=
    match getSessions with
    | Rejected _ => st
    | Resolved sessionsData =>
        let st := setSessions sessionsData st in
        match Promise_all (map (fun session => getTrades (id session))
                               sessionsData) with
        | Rejected _ => st
        | Resolved tradesArrays =>
            let flatTrades := concat tradesArrays in
            let st := setAllTrades flatTrades st in
            match calculateUserAnalytics_watched argumentLimit Math_pow
                    (map session_fields sessionsData)
                    (map trade_fields flatTrades) with
            | Ok calculatedAnalytics =>
                setAnalytics (Some calculatedAnalytics) st
            | Raise _ => st
            end
        end
    end in
  setLoading false st.

(** Callback of the chart's [allTrades.reduce]; [acc[acc.length - 1]] is
    there exactly when [acc.length > 0]. *)
Definition performanceStep (acc : list PerformancePoint) (trade : TradeRow)
    (index : nat) : list PerformancePoint :=
  let runningPnL :=
    match nth_error acc (length acc - 1) with
    | Some lastPoint =>
        pp_cumulative lastPoint + profit_loss (trade_fields trade)
    | None => profit_loss (trade_fields trade)
    end in
  acc ++ [mkPerformancePoint (index + 1) runningPnL
            (profit_loss (trade_fields trade))
            (toLocaleDateString (created_at trade))].

Definition performanceData (allTrades : list TradeRow) : list PerformancePoint :=
  reduce_indexed performanceStep allTrades 0 [].

End PageBody.

(** The percentages shown beside the long and short counts. *)
Definition longSharePercent (a : UserAnalytics) : float :=
  (Number_of_nat (longTrades a) / Number_of_nat (totalTrades a)) * 100.

Definition shortSharePercent (a : UserAnalytics) : float :=
  (Number_of_nat (shortTrades a) / Number_of_nat (totalTrades a)) * 100.

(** The captions under the Sharpe ratio and the profit factor. *)
Definition sharpeLabel (a : UserAnalytics) : string :=
  if sharpeRatio a >? 1 then "Excellent"
  else if sharpeRatio a >? 0.5 then "Above average"
  else "Below average".

Definition profitFactorLabel (a : UserAnalytics) : string :=
  if profitFactor a >? 2 then "Strong performance"
  else if profitFactor a >? 1 then "Profitable"
  else "Needs improvement".

End Page.

(** ** The trading context of the chat ([EnhancedChatInterface.tsx]) *)

Module Chat.

(** The two figures [getTradingContext] computes from the session's trades
    before formatting them. *)
Definition context_totalPnL (trades : list Trade) : float :=
  reduce_sum profit_loss trades.

Definition context_winRate (trades : list Trade) : float :=
  if Nat.ltb 0 (length trades) then
    (Number_of_nat (length (filter (fun t => profit_loss t >? 0) trades))
     / Number_of_nat (length trades)) * 100
  else 0.

End Chat.

(** ** The extraction service ([geminiService.ts]) *)

Module Gemini.

(** The object parsed from the model's answer.  The program guards every
    field it reads ([!data.symbol], [data.tp?.toString()], ...), so each one
    may be missing. *)
Record ExtractedTradeData : Type := mkExtractedTradeData {
  symbol : option string;
  type : option string;
  volumeLot : option float;
  openPrice : option float;
  closePrice : option float;
  tp : option float;
  sl : option float;
  position : option string;
  openTime : option string;
  closeTime : option string;
  reason : option string;
  pnlUsd : option float
}.

(** [GeminiResponse], every level of which the program reads through [?.]. *)
Record Part : Type := mkPart { text : option string }.
Record Content : Type := mkContent { parts : option (list Part) }.
Record Candidate : Type := mkCandidate { content : option Content }.
Record GeminiResponse : Type := mkGeminiResponse {
  candidates : option (list Candidate)
}.

(** What [fetch] resolves to: the status line and the promise of the body. *)
Record HttpResponse : Type := mkHttpResponse {
  ok : bool;
  status : nat;
  json : Attempt GeminiResponse
}.

(** [data.candidates?.[0]?.content?.parts?.[0]?.text]. *)
Definition first_text (data : GeminiResponse) : option string :=
  match candidates data with
  | Some (candidate :: _) =>
      match content candidate with
      | Some c =>
          match parts c with
          | Some (part :: _) => text part
          | _ => None
          end
      | None => None
      end
  | _ => None
  end.

(** A number is falsy when it is missing, zero or NaN. *)
Definition truthy_field (x : option float) : bool :=
  match x with
  | Some v => truthy_number v
  | None => false
  end.

Definition extraction_failed : string :=
  "Failed to extract trade data from image. Please ensure the image shows clear trading information.".

Definition no_answer : string :=
  "I apologize, but I cannot process your request right now.".

Definition no_answer_retry : string :=
  "I apologize, but I cannot process your request right now. Please try again later.".

Section Service.

(** The HTTP exchange with the API, and [JSON.parse] on the answer's text. *)
Variable fetch : Attempt HttpResponse.
Variable JSON_parse : string -> Attempt ExtractedTradeData.
(** [`Gemini API error: ${response.status}`]. *)
Variable api_error : nat -> string.

(** The body of the [try] of [extractTradeDataFromImage]. *)
Definition extract_attempt : Attempt ExtractedTradeData :=
  match fetch with
  | Rejected e => Rejected e
  | Resolved response =>
      if negb (ok response) then
        Rejected (ErrorWith (api_error (status response)))
      else
        match json response with
        | Rejected e => Rejected e
        | Resolved data =>
            match first_text data with
            | None => Rejected (ErrorWith "No response from Gemini API")
            | Some extractedText =>
                if String.eqb extractedText "" then
                  Rejected (ErrorWith "No response from Gemini API")
                else
                  match JSON_parse extractedText with
                  | Rejected e => Rejected e
                  | Resolved extractedData =>
                      if negb (truthy_string (symbol extractedData))
                         || negb (truthy_string (type extractedData))
                         || negb (truthy_field (openPrice extractedData))
                      then Rejected
                             (ErrorWith "Missing required trade data in extraction")
                      else Resolved extractedData
                  end
            end
        end
  end.

(** [extractTradeDataFromImage]: whatever the [try] throws is replaced in
    the [catch] by one fixed error. *)
Definition extractTradeDataFromImage : Attempt ExtractedTradeData :=
  match extract_attempt with
  | Resolved extractedData => Resolved extractedData
  | Rejected _ => Rejected (ErrorWith extraction_failed)
  end.

(** [getChatResponse]: the answer's text, or one of two apologies. *)
Definition getChatResponse : string :=
  match fetch with
  | Rejected _ => no_answer_retry
  | Resolved response =>
      if negb (ok response) then no_answer_retry
      else
        match json response with
        | Rejected _ => no_answer_retry
        | Resolved data => or_else (first_text data) no_answer
        end
  end.

End Service.

End Gemini.

(** ** The trade form ([EnhancedTradeForm.tsx]) *)

Module TradeForm.

(** The form's state: the text of every input, and the flags beside them. *)
Record FormState : Type := mkFormState {
  symbol : string;
  type : string;
  volumeLot : string;
  openPrice : string;
  closePrice : string;
  tp : string;
  sl : string;
  position : string;
  openTime : string;
  closeTime : string;
  reason : string;
  pnlUsd : string;
  comments : string;
  loading : bool;
  showImageUpload : bool;
  extractedData : option Gemini.ExtractedTradeData
}.

(** The trade handed to [onAddTrade]: a [Trade] without [id] and
    [created_at]. *)
Record NewTrade : Type := mkNewTrade {
  nt_session_id : string;
  nt_margin : float;
  nt_roi : float;
  nt_entry_side : string;
  nt_profit_loss : float;
  nt_comments : option string
}.

(** The stored trade as the analytics page reads it back. *)
Definition asTrade (t : NewTrade) : Trade :=
  mkTrade (nt_profit_loss t) (nt_roi t) (nt_entry_side t).

Inductive Toast : Type :=
| ToastError : string -> Toast
| ToastSuccess : string -> Toast.

(** What a submission leaves behind: the form, the toast shown, and the
    trade passed to [onAddTrade] if the call was made. *)
Record SubmitResult : Type := mkSubmitResult {
  form_after : FormState;
  toast : Toast;
  sent : option NewTrade
}.

Definition nonempty (s : string) : bool := negb (String.eqb s "").

Definition clearForm (f : FormState) : FormState :=
  {| symbol := ""; type := ""; volumeLot := ""; openPrice := "";
     closePrice := ""; tp := ""; sl := ""; position := ""; openTime := "";
     closeTime := ""; reason := "Other"; pnlUsd := ""; comments := "";
     loading := loading f; showImageUpload := showImageUpload f;
     extractedData := None |}.

Definition setLoading (v : bool) (f : FormState) : FormState :=
  {| symbol := symbol f; type := type f; volumeLot := volumeLot f;
     openPrice := openPrice f; closePrice := closePrice f; tp := tp f;
     sl := sl f; position := position f; openTime := openTime f;
     closeTime := closeTime f; reason := reason f; pnlUsd := pnlUsd f;
     comments := comments f; loading := v;
     showImageUpload := showImageUpload f;
     extractedData := extractedData f |}.

Section Form.

(** [Number(text)], [text.trim()], [number.toString()] and
    [JSON.stringify(data, null, 2)]. *)
Variable Number_of_string : string -> float.
Variable trim : string -> string.
Variable toString : float -> string.
Variable JSON_stringify : Gemini.ExtractedTradeData -> string.

(** [data.field?.toString() || '']. *)
Definition number_text (x : option float) : string :=
  or_else (option_map toString x) "".

Definition handleDataExtracted (data : Gemini.ExtractedTradeData)
    (f : FormState) : FormState :=
  {| symbol := or_else (Gemini.symbol data) "";
     type := or_else (Gemini.type data) "";
     volumeLot := number_text (Gemini.volumeLot data);
     openPrice := number_text (Gemini.openPrice data);
     closePrice := number_text (Gemini.closePrice data);
     tp := number_text (Gemini.tp data);
     sl := number_text (Gemini.sl data);
     position := or_else (Gemini.position data) "";
     openTime := or_else (Gemini.openTime data) "";
     closeTime := or_else (Gemini.closeTime data) "";
     reason := or_else (Gemini.reason data) "Other";
     pnlUsd := number_text (Gemini.pnlUsd data);
     comments :=
       String.append
         (String.append "Auto-extracted from screenshot:"
            (String "010"%char EmptyString))
         (JSON_stringify data);
     loading := loading f;
     showImageUpload := false;
     extractedData := Some data |}.

Definition calculatedMargin (f : FormState) : float :=
  if nonempty (volumeLot f) && nonempty (openPrice f)
  then Number_of_string (volumeLot f) * Number_of_string (openPrice f)
  else 0.

Definition calculatedROI (f : FormState) : float :=
  if truthy_number (calculatedMargin f) && nonempty (pnlUsd f)
  then (Number_of_string (pnlUsd f) / calculatedMargin f) * 100
  else 0.

(** The trade [handleSubmit] builds from the form. *)
Definition tradeOf (sessionId : string) (f : FormState) : NewTrade :=
  {| nt_session_id := sessionId;
     nt_margin := calculatedMargin f;
     nt_roi := calculatedROI f;
     nt_entry_side := if String.eqb (type f) "Buy" then "Long" else "Short";
     nt_profit_loss := Number_of_string (pnlUsd f);
     nt_comments :=
       if nonempty (trim (comments f)) then Some (trim (comments f)) else None |}.

Definition handleSubmit (sessionId : string)
    (onAddTrade : NewTrade -> Attempt unit) (f : FormState) : SubmitResult :=
  if negb (nonempty (symbol f)) || negb (nonempty (type f))
     || negb (nonempty (volumeLot f)) || negb (nonempty (openPrice f))
     || negb (nonempty (pnlUsd f))
  then mkSubmitResult f (ToastError "Please fill in all required fields") None
  else
    let trade := tradeOf sessionId f in
    match onAddTrade trade with
    | Resolved _ =>
        mkSubmitResult (setLoading false (clearForm (setLoading true f)))
          (ToastSuccess "Trade added successfully") (Some trade)
    | Rejected _ =>
        mkSubmitResult (setLoading false (setLoading true f))
          (ToastError "Failed to add trade") (Some trade)
    end.

End Form.

End TradeForm.

(** ** The upload zone ([ImageUploadZone.tsx]) *)

Module Upload.

(** A [File], as far as the component reads it; [size] is in bytes. *)
Record File : Type := mkFile {
  name : string;
  type : string;
  size : N
}.

Inductive Status : Type := idle | success | error.

Record UploadState : Type := mkUploadState {
  preview : option string;
  fileName : string;
  extractionStatus : Status;
  isProcessing : bool
}.

Definition setPreview (v : option string) (st : UploadState) : UploadState :=
  mkUploadState v (fileName st) (extractionStatus st) (isProcessing st).

Definition setFileName (v : string) (st : UploadState) : UploadState :=
  mkUploadState (preview st) v (extractionStatus st) (isProcessing st).

Definition setExtractionStatus (v : Status) (st : UploadState) : UploadState :=
  mkUploadState (preview st) (fileName st) v (isProcessing st).

Definition setIsProcessing (v : bool) (st : UploadState) : UploadState :=
  mkUploadState (preview st) (fileName st) (extractionStatus st) v.

(** What handling a file leaves behind: the state, the toast shown, the
    argument of the call to the extraction service if it was made, and the
    data passed to [onDataExtracted] if it was called (whether the callback
    then returned or threw). *)
Record UploadResult : Type := mkUploadResult {
  state_after : UploadState;
  toast : TradeForm.Toast;
  requested : option (option string);
  extracted : option Gemini.ExtractedTradeData
}.

(** What follows the first separator, if there is one. *)
Fixpoint after_separator (sep : ascii) (s : string) : option string :=
  match s with
  | EmptyString => None
  | String c rest =>
      if Ascii.eqb c sep then Some rest else after_separator sep rest
  end.

(** [s.split(sep)[1]]. *)
Definition split_second (sep : ascii) (s : string) : option string :=
  option_map (before_separator sep) (after_separator sep s).

(** The drag-and-drop highlight and the counter of nested drag events. *)
Record DragState : Type := mkDragState {
  isDragOver : bool;
  dragCounter : Z
}.

(** [hasItems] stands for
    [e.dataTransfer.items && e.dataTransfer.items.length > 0]. *)
Definition handleDragEnter (hasItems : bool) (st : DragState) : DragState :=
  let counter := (dragCounter st + 1)%Z in
  mkDragState (if hasItems then true else isDragOver st) counter.

Definition handleDragLeave (st : DragState) : DragState :=
  let counter := (dragCounter st - 1)%Z in
  mkDragState (if Z.eqb counter 0 then false else isDragOver st) counter.

Section Zone.

(** [FileReader.readAsDataURL]: the data URL, or nothing when the reader
    fires its error event; the extraction service; and the parent's
    callback, which returns or throws. *)
Variable readAsDataURL : File -> option string.
Variable extractTradeDataFromImage :
  option string -> Attempt Gemini.ExtractedTradeData.
Variable onDataExtracted : Gemini.ExtractedTradeData -> Attempt unit.

(** [convertFileToBase64]: the data URL without its
    [data:image/...;base64,] prefix; the promise rejects with the reader's
    error event, which is not an [Error]. *)
Definition convertFileToBase64 (file : File) : Attempt (option string) :=
  match readAsDataURL file with
  | Some result => Resolved (split_second ","%char result)
  | None => Rejected OtherValue
  end.

Definition handleFile (file : File) (st : UploadState) : UploadResult :=
  if negb (String.prefix "image/" (type file)) then
    mkUploadResult (setExtractionStatus error st)
      (TradeForm.ToastError "Please select an image file (PNG, JPG, JPEG)")
      None None
  else if N.ltb (10 * 1024 * 1024) (size file) then
    mkUploadResult (setExtractionStatus error st)
      (TradeForm.ToastError "File size must be less than 10MB")
      None None
  else
    let st := setFileName (name file) st in
    let st := setExtractionStatus idle st in
    let st :=
      match readAsDataURL file with
      | Some result => setPreview (Some result) st
      | None => st
      end in
    let st := setIsProcessing true st in
    let caught (e : Thrown) (st : UploadState)
               (request : option (option string))
               (passed : option Gemini.ExtractedTradeData) :=
      mkUploadResult (setIsProcessing false (setExtractionStatus error st))
        (TradeForm.ToastError
           match e with
           | ErrorWith message => message
           | OtherValue => "Failed to extract trade data"
           end)
        request passed in
    match convertFileToBase64 file with
    | Rejected e => caught e st None None
    | Resolved base64 =>
        match extractTradeDataFromImage base64 with
        | Rejected e => caught e st (Some base64) None
        | Resolved extractedData =>
            let st := setExtractionStatus success st in
            match onDataExtracted extractedData with
            | Rejected e => caught e st (Some base64) (Some extractedData)
            | Resolved _ =>
                mkUploadResult (setIsProcessing false st)
                  (TradeForm.ToastSuccess "Trade data extracted successfully!")
                  (Some base64) (Some extractedData)
            end
        end
    end.

End Zone.

End Upload.

(** ** Facts about binary64 comparisons *)

Lemma gt_zero_not_zero (x : float) : (x >? 0) = true -> is_zero x = false.
Proof.
  unfold gtb, is_zero.
  rewrite FloatAxioms.ltb_spec, FloatAxioms.eqb_spec.
  destruct (Prim2SF x) as [s | s | | s m e]; cbn;
    try destruct s; cbn; congruence.
Qed.

Lemma zero_not_gt_zero (x : float) : is_zero x = true -> (x >? 0) = false.
Proof.
  intros Hz. destruct (x >? 0) eqn:Hgt; [|reflexivity].
  apply gt_zero_not_zero in Hgt. congruence.
Qed.

Lemma zero_not_lt_zero (x : float) : is_zero x = true -> (x <? 0) = false.
Proof.
  unfold is_zero.
  rewrite FloatAxioms.ltb_spec, FloatAxioms.eqb_spec.
  destruct (Prim2SF x) as [s | s | | s m e]; cbn;
    try destruct s; cbn; congruence.
Qed.

Lemma le_zero_not_gt_zero (x : float) : (x <=? 0) = true -> (x >? 0) = false.
Proof.
  unfold gtb.
  rewrite FloatAxioms.ltb_spec, FloatAxioms.leb_spec.
  destruct (Prim2SF x) as [s | s | | s m e]; cbn;
    try destruct s; cbn; congruence.
Qed.

(** ** Sums and counts *)

Lemma reduce_sum_map {A : Type} (f : A -> float) (xs : list A) :
  reduce_sum f xs = Spec.sum (map f xs).
Proof.
  unfold reduce_sum, Spec.sum. generalize 0.
  induction xs as [|x xs IH]; intros acc; simpl; [reflexivity|apply IH].
Qed.

Lemma length_filter_count {A : Type} (p : A -> bool) (xs : list A) :
  length (filter p xs) = Spec.count p xs.
Proof.
  induction xs as [|x xs IH]; simpl; [reflexivity|].
  destruct (p x); simpl; rewrite IH; reflexivity.
Qed.

(** The routine on a non-empty array takes its second branch. *)
Lemma nonempty_length (trades : list Trade) :
  trades <> [] -> Nat.eqb (length trades) 0 = false.
Proof.
  destruct trades; [congruence|reflexivity].
Qed.

(** ** Drawdown *)

(** The loop, started in any state, is the walk of the specification started
    from that state's running sum, peak and best decline. *)
Lemma drawdown_fold_walk (trades : list Trade) : forall st : DrawdownState,
  let final := fold_left drawdownStep trades st in
  let running := Spec.cumulative (dd_runningPnL st) (map profit_loss trades) in
  (dd_maxDrawdownAmount final, dd_maxDrawdown final)
  = Spec.deepest (dd_maxDrawdownAmount st, dd_maxDrawdown st)
      (combine (Spec.runningPeak (dd_peak st) running) running).
Proof.
  induction trades as [|trade rest IH]; intros st; [reflexivity|].
  cbn zeta in *. simpl fold_left. rewrite IH. simpl.
  unfold drawdownStep, Spec.percentOfPeak.
  destruct (dd_runningPnL st + profit_loss trade >? dd_peak st);
    match goal with |- context [ ?d >? dd_maxDrawdownAmount st ] =>
      destruct (d >? dd_maxDrawdownAmount st) end; reflexivity.
Qed.

(** C1. For every ordered sequence of trades the reported
    (maxDrawdownAmount, maxDrawdownPercent) is the result of walking the
    sequence with a running cumulative P&L and a running peak, both starting
    at zero: at each step the drawdown is peak - running, and a drawdown
    exceeding the best seen so far is recorded together with
    drawdown / peak * 100 when peak > 0 and 0 otherwise.  For the P&L
    sequence [10, -20, 5] the amount is 20 and the percentage 200. *)
Theorem drawdown_walk :
  forall (Math_pow : float -> float -> float) (sessions : list TradingSession),
    (forall trades : list Trade,
        let r := calculateUserAnalytics Math_pow sessions trades in
        (maxDrawdownAmount r, maxDrawdown r)
        = Spec.drawdown (map profit_loss trades))
    /\ (forall (roi1 roi2 roi3 : float) (side1 side2 side3 : string),
           let r := calculateUserAnalytics Math_pow sessions
                      [mkTrade 10 roi1 side1; mkTrade (-20) roi2 side2;
                       mkTrade 5 roi3 side3] in
           maxDrawdownAmount r = 20 /\ maxDrawdown r = 200).
Proof.
  intros Math_pow sessions. split.
  - intros [|trade rest]; [reflexivity|].
    cbn zeta. unfold calculateUserAnalytics.
    cbn [length Nat.eqb maxDrawdownAmount maxDrawdown].
    unfold drawdownLoop. rewrite drawdown_fold_walk. reflexivity.
  - intros. split; vm_compute; reflexivity.
Qed.

(** ** Streaks *)

Lemma list_max_cons (x : nat) (xs : list nat) :
  list_max (x :: xs) = Nat.max x (list_max xs).
Proof. reflexivity. Qed.

(** The loop, started in any state, reaches the maxima of the two counters'
    values from that state on. *)
Lemma streak_fold_runs (trades : list Trade) : forall st : StreakState,
  let final := fold_left streakStep trades st in
  let outcomes := map Spec.isWin trades in
  st_bestStreak final
  = Nat.max (st_bestStreak st)
      (list_max (Spec.winRuns (st_currentWinStreak st) outcomes))
  /\ st_worstStreak final
     = Nat.max (st_worstStreak st)
         (list_max (Spec.lossRuns (st_currentLossStreak st) outcomes)).
Proof.
  induction trades as [|trade rest IH]; intros st; cbn zeta in *.
  - simpl. split; lia.
  - simpl fold_left. destruct (IH (streakStep st trade)) as [Hb Hw].
    rewrite Hb, Hw. unfold streakStep, Spec.isWin.
    cbn [map Spec.winRuns Spec.lossRuns].
    destruct (profit_loss trade >? 0);
      cbn [st_bestStreak st_worstStreak st_currentWinStreak st_currentLossStreak];
      rewrite !list_max_cons; split; lia.
Qed.

(** C2. bestStreak and worstStreak are the largest values reached by a
    win-run counter and a loss-run counter walked over the sequence: a trade
    with profit_loss > 0 increments the win counter and resets the loss
    counter; a trade with profit_loss <= 0, zero included, resets the win
    counter and increments the loss counter.  For the outcomes
    [win, win, loss, win, loss, loss, loss] the streaks are 2 and 3. *)
Theorem streaks_walk :
  forall (Math_pow : float -> float -> float) (sessions : list TradingSession),
    (forall trades : list Trade,
        let r := calculateUserAnalytics Math_pow sessions trades in
        bestStreak r = Spec.bestStreak (map Spec.isWin trades)
        /\ worstStreak r = Spec.worstStreak (map Spec.isWin trades))
    /\ (forall (st : StreakState) (t : Trade),
           (profit_loss t >? 0) = true ->
           st_currentWinStreak (streakStep st t) = S (st_currentWinStreak st)
           /\ st_currentLossStreak (streakStep st t) = O
           /\ Spec.isWin t = true)
    /\ (forall (st : StreakState) (t : Trade),
           (profit_loss t <=? 0) = true ->
           st_currentWinStreak (streakStep st t) = O
           /\ st_currentLossStreak (streakStep st t) = S (st_currentLossStreak st)
           /\ Spec.isWin t = false)
    /\ (forall trades : list Trade,
           map Spec.isWin trades = [true; true; false; true; false; false; false] ->
           let r := calculateUserAnalytics Math_pow sessions trades in
           bestStreak r = 2%nat /\ worstStreak r = 3%nat).
Proof.
  intros Math_pow sessions.
  assert (Hwalk : forall trades : list Trade,
             let r := calculateUserAnalytics Math_pow sessions trades in
             bestStreak r = Spec.bestStreak (map Spec.isWin trades)
             /\ worstStreak r = Spec.worstStreak (map Spec.isWin trades)).
  { intros [|trade rest]; [split; reflexivity|].
    cbn zeta. unfold calculateUserAnalytics.
    cbn [length Nat.eqb bestStreak worstStreak].
    unfold streakLoop.
    destruct (streak_fold_runs (trade :: rest) streakInit) as [Hb Hw].
    rewrite Hb, Hw. split; reflexivity. }
  split; [exact Hwalk|]. split; [|split].
  - intros st t Hgt. unfold streakStep, Spec.isWin. rewrite Hgt. auto.
  - intros st t Hle. apply le_zero_not_gt_zero in Hle.
    unfold streakStep, Spec.isWin. rewrite Hle. auto.
  - intros trades Hout. cbn zeta. destruct (Hwalk trades) as [Hb Hw].
    rewrite Hb, Hw, Hout. split; reflexivity.
Qed.

(** The seven-trade example run on concrete trades; the third one closes at
    exactly zero and counts as a loss. *)
Lemma streaks_walk_witness :
  bestStreak (calculateUserAnalytics pow_by_product []
                [mkTrade 5 1 "Long"; mkTrade 3 1 "Long"; mkTrade 0 0 "Short";
                 mkTrade 2 1 "Long"; mkTrade (-1) (-1) "Short";
                 mkTrade (-4) (-2) "Long"; mkTrade (-2) (-1) "Long"]) = 2%nat
  /\ worstStreak (calculateUserAnalytics pow_by_product []
                [mkTrade 5 1 "Long"; mkTrade 3 1 "Long"; mkTrade 0 0 "Short";
                 mkTrade 2 1 "Long"; mkTrade (-1) (-1) "Short";
                 mkTrade (-4) (-2) "Long"; mkTrade (-2) (-1) "Long"]) = 3%nat.
Proof.
  apply (proj2 (proj2 (proj2 (streaks_walk pow_by_product [])))).
  vm_compute. reflexivity.
Defined.

(** ** Profit factor *)

Lemma profitFactor_spec_eq (Math_pow : float -> float -> float)
      (sessions : list TradingSession) (trades : list Trade) :
  trades <> [] ->
  profitFactor (calculateUserAnalytics Math_pow sessions trades)
  = Spec.profitFactor trades.
Proof.
  intros Hne. unfold calculateUserAnalytics. rewrite (nonempty_length Hne).
  cbn [profitFactor]. rewrite !reduce_sum_map. reflexivity.
Qed.

(** C3. On a non-empty sequence, with grossProfit the sum of the positive
    P&Ls and grossLoss the absolute value of the sum of the negative ones,
    profitFactor is grossProfit / grossLoss when grossLoss > 0; otherwise it
    is the sentinel 999 when grossProfit > 0 and 0 when it is not. *)
Theorem profitFactor_cases :
  forall (Math_pow : float -> float -> float) (sessions : list TradingSession)
         (trades : list Trade),
    trades <> [] ->
    let r := calculateUserAnalytics Math_pow sessions trades in
    let grossProfit := Spec.sum (map profit_loss (filter Spec.isWin trades)) in
    let grossLoss := abs (Spec.sum (map profit_loss (filter Spec.isLoss trades))) in
    profitFactor r = Spec.profitFactor trades
    /\ ((grossLoss >? 0) = true -> profitFactor r = grossProfit / grossLoss)
    /\ ((grossLoss >? 0) = false -> (grossProfit >? 0) = true ->
        profitFactor r = 999)
    /\ ((grossLoss >? 0) = false -> (grossProfit >? 0) = false ->
        profitFactor r = 0).
Proof.
  intros Math_pow sessions trades Hne. cbn zeta.
  rewrite (profitFactor_spec_eq Math_pow sessions Hne). unfold Spec.profitFactor, Spec.grossLoss, Spec.grossProfit, Spec.sentinel.
  split; [reflexivity|]. split; [|split].
  - intros ->. reflexivity.
  - intros -> ->. reflexivity.
  - intros -> ->. reflexivity.
Qed.

(** Two wins and a loss: 30 won, 10 lost, factor 3; the first part of the
    theorem then gives the general definition on the same input. *)
Lemma profitFactor_cases_witness :
  [mkTrade 10 1 "Long"; mkTrade (-10) (-1) "Short"; mkTrade 20 2 "Long"] <> []
  /\ profitFactor (calculateUserAnalytics pow_by_product []
       [mkTrade 10 1 "Long"; mkTrade (-10) (-1) "Short"; mkTrade 20 2 "Long"])
     = 30 / 10.
Proof.
  split; [discriminate|].
  apply (proj1 (proj2 (@profitFactor_cases pow_by_product []
           [mkTrade 10 1 "Long"; mkTrade (-10) (-1) "Short"; mkTrade 20 2 "Long"]
           ltac:(discriminate)))).
  vm_compute. reflexivity.
Defined.

(** ** Sharpe ratio *)

Lemma sharpeRatio_spec_eq (Math_pow : float -> float -> float)
      (sessions : list TradingSession) (trades : list Trade) :
  trades <> [] ->
  sharpeRatio (calculateUserAnalytics Math_pow sessions trades)
  = let returns := map roi trades in
    if Spec.populationStdDev Math_pow returns >? 0
    then Spec.mean returns / Spec.populationStdDev Math_pow returns
    else 0.
Proof.
  intros Hne. unfold calculateUserAnalytics. rewrite (nonempty_length Hne).
  cbn [sharpeRatio]. cbn zeta.
  unfold Spec.populationStdDev, Spec.mean, Math_sqrt.
  rewrite !reduce_sum_map, map_id. reflexivity.
Qed.

(** C4. On a non-empty sequence sharpeRatio is the arithmetic mean of the
    roi values divided by their population standard deviation (the sum of
    squared deviations divided by the count); when that standard deviation
    is zero, sharpeRatio is exactly 0, a finite number. *)
Theorem sharpeRatio_mean_over_stddev :
  forall (Math_pow : float -> float -> float) (sessions : list TradingSession)
         (trades : list Trade),
    trades <> [] ->
    let r := calculateUserAnalytics Math_pow sessions trades in
    let returns := map roi trades in
    let mean := Spec.sum returns / Number_of_nat (length returns) in
    let stdDev :=
      sqrt (Spec.sum (map (fun x => Math_pow (x - mean) 2) returns)
            / Number_of_nat (length returns)) in
    ((stdDev >? 0) = true -> sharpeRatio r = mean / stdDev)
    /\ (is_zero stdDev = true ->
        sharpeRatio r = 0 /\ is_nan (sharpeRatio r) = false
        /\ is_infinity (sharpeRatio r) = false)
    /\ sharpeRatio r = (if stdDev >? 0 then mean / stdDev else 0).
Proof.
  intros Math_pow sessions trades Hne. cbn zeta.
  rewrite (sharpeRatio_spec_eq Math_pow sessions Hne). cbn zeta.
  unfold Spec.populationStdDev, Spec.mean.
  split; [|split].
  - intros ->. reflexivity.
  - intros Hz. rewrite (zero_not_gt_zero Hz). repeat split; reflexivity.
  - reflexivity.
Qed.

(** Three trades with the same roi: the deviations are all zero, so is the
    standard deviation, and the ratio is the sentinel 0. *)
Lemma sharpeRatio_mean_over_stddev_witness :
  [mkTrade 10 2 "Long"; mkTrade (-4) 2 "Short"; mkTrade 1 2 "Long"] <> []
  /\ sharpeRatio (calculateUserAnalytics pow_by_product []
       [mkTrade 10 2 "Long"; mkTrade (-4) 2 "Short"; mkTrade 1 2 "Long"]) = 0.
Proof.
  split; [discriminate|].
  apply (proj1 (proj2 (@sharpeRatio_mean_over_stddev pow_by_product []
           [mkTrade 10 2 "Long"; mkTrade (-4) 2 "Short"; mkTrade 1 2 "Long"]
           ltac:(discriminate)))).
  vm_compute. reflexivity.
Defined.

(** ** Empty input *)

(** C5. For the empty trade sequence and any sessions, winRate, sharpeRatio,
    maxDrawdownPercent and profitFactor are 0 and riskLevel is Low, while
    activeCapital is the sum of the sessions' capital; that sum is the
    activeCapital whatever the trades are. *)
Theorem empty_input_policy :
  forall (Math_pow : float -> float -> float) (sessions : list TradingSession),
    let r := calculateUserAnalytics Math_pow sessions [] in
    winRate r = 0 /\ sharpeRatio r = 0 /\ maxDrawdown r = 0
    /\ profitFactor r = 0 /\ riskLevel r = Low
    /\ activeCapital r = Spec.sum (map current_capital sessions)
    /\ (forall trades : list Trade,
           activeCapital (calculateUserAnalytics Math_pow sessions trades)
           = Spec.sum (map current_capital sessions)).
Proof.
  intros Math_pow sessions. cbn zeta.
  repeat split; try reflexivity.
  - apply reduce_sum_map.
  - intros [|trade rest]; apply reduce_sum_map.
Qed.

(** ** Win rate *)

(** C6. On a non-empty sequence winRate is the number of trades with
    profit_loss > 0 divided by the number of trades, times 100; a trade whose
    profit_loss is zero is neither in the winning nor in the losing set. *)
Theorem winRate_counts_wins :
  forall (Math_pow : float -> float -> float) (sessions : list TradingSession)
         (trades : list Trade),
    trades <> [] ->
    let r := calculateUserAnalytics Math_pow sessions trades in
    winRate r
    = Number_of_nat (Spec.count (fun t => profit_loss t >? 0) trades)
      / Number_of_nat (length trades) * 100
    /\ (forall t : Trade,
           is_zero (profit_loss t) = true ->
           ~ In t (filter (fun t => profit_loss t >? 0) trades)
           /\ ~ In t (filter (fun t => profit_loss t <? 0) trades)).
Proof.
  intros Math_pow sessions trades Hne. cbn zeta. split.
  - unfold calculateUserAnalytics. rewrite (nonempty_length Hne).
    cbn [winRate]. rewrite length_filter_count. reflexivity.
  - intros t Hz. split; intros Hin; apply filter_In in Hin as [_ Hp].
    + rewrite (zero_not_gt_zero Hz) in Hp. discriminate.
    + rewrite (zero_not_lt_zero Hz) in Hp. discriminate.
Qed.

(** One win, one break-even trade, one loss and one more win: two wins out
    of four. *)
Lemma winRate_counts_wins_witness :
  [mkTrade 10 1 "Long"; mkTrade 0 0 "Long"; mkTrade (-5) (-1) "Short";
   mkTrade 3 1 "Short"] <> []
  /\ winRate (calculateUserAnalytics pow_by_product []
       [mkTrade 10 1 "Long"; mkTrade 0 0 "Long"; mkTrade (-5) (-1) "Short";
        mkTrade 3 1 "Short"]) = 50.
Proof.
  split; [discriminate|].
  apply (eq_trans (proj1 (@winRate_counts_wins pow_by_product []
           [mkTrade 10 1 "Long"; mkTrade 0 0 "Long"; mkTrade (-5) (-1) "Short";
            mkTrade 3 1 "Short"] ltac:(discriminate)))).
  vm_compute. reflexivity.
Defined.

(** ** Risk level *)

(** C7. riskLevel is a step function of the reported maxDrawdownPercent:
    High above 20, Moderate above 10 and not above 20, Low otherwise. *)
Theorem riskLevel_step_function :
  forall (Math_pow : float -> float -> float) (sessions : list TradingSession)
         (trades : list Trade),
    let r := calculateUserAnalytics Math_pow sessions trades in
    riskLevel r
    = (if maxDrawdown r >? 20 then High
       else if maxDrawdown r >? 10 then Moderate
       else Low)
    /\ riskLevel r = Spec.riskLevelOf (maxDrawdown r).
Proof.
  intros Math_pow sessions [|trade rest]; cbn zeta; split; reflexivity.
Qed.

(** ** Counts by side *)

Lemma count_disjoint_le {A : Type} (p q : A -> bool) (xs : list A) :
  (forall x, p x = true -> q x = false) ->
  (Spec.count p xs + Spec.count q xs <= length xs)%nat.
Proof.
  intros Hpq. induction xs as [|x xs IH]; simpl; [lia|].
  destruct (p x) eqn:Hp; [rewrite (Hpq x Hp)|destruct (q x)]; lia.
Qed.

Lemma long_not_short (t : Trade) : isLong t = true -> isShort t = false.
Proof.
  unfold isLong, isShort. intros H. apply String.eqb_eq in H. rewrite H.
  reflexivity.
Qed.

(** C9. longTrades + shortTrades never exceeds totalTrades; longTrades counts
    the trades whose entry_side is Long, shortTrades those whose entry_side
    is Short, and a trade with neither value is counted in neither. *)
Theorem sides_within_total :
  forall (Math_pow : float -> float -> float) (sessions : list TradingSession)
         (trades : list Trade),
    let r := calculateUserAnalytics Math_pow sessions trades in
    (longTrades r + shortTrades r <= totalTrades r)%nat
    /\ longTrades r = Spec.count isLong trades
    /\ shortTrades r = Spec.count isShort trades
    /\ (forall t : Trade,
           (isLong t = true <-> entry_side t = "Long"%string)
           /\ (isShort t = true <-> entry_side t = "Short"%string))
    /\ (forall t : Trade,
           entry_side t <> "Long"%string -> entry_side t <> "Short"%string ->
           ~ In t (filter isLong trades) /\ ~ In t (filter isShort trades)).
Proof.
  intros Math_pow sessions trades. cbn zeta.
  assert (Hl : longTrades (calculateUserAnalytics Math_pow sessions trades)
               = Spec.count isLong trades).
  { destruct trades; [reflexivity|]. apply length_filter_count. }
  assert (Hs : shortTrades (calculateUserAnalytics Math_pow sessions trades)
               = Spec.count isShort trades).
  { destruct trades; [reflexivity|]. apply length_filter_count. }
  assert (Ht : totalTrades (calculateUserAnalytics Math_pow sessions trades)
               = length trades).
  { destruct trades; reflexivity. }
  rewrite Hl, Hs, Ht. split; [|split; [|split; [|split]]]; try reflexivity.
  - apply count_disjoint_le. exact long_not_short.
  - intros t. split; apply String.eqb_eq.
  - intros t Hnl Hns.
    split; intros Hin; apply filter_In in Hin as [_ Hp];
      apply String.eqb_eq in Hp; contradiction.
Qed.

(** Three trades, one of them with a side that is neither Long nor Short:
    it is in neither filtered array. *)
Lemma sides_within_total_witness :
  ~ In (mkTrade 1 1 "Flat")
       (filter isLong [mkTrade 2 1 "Long"; mkTrade 1 1 "Flat"; mkTrade 3 1 "Short"])
  /\ ~ In (mkTrade 1 1 "Flat")
       (filter isShort [mkTrade 2 1 "Long"; mkTrade 1 1 "Flat"; mkTrade 3 1 "Short"]).
Proof.
  apply (proj2 (proj2 (proj2 (proj2
           (sides_within_total pow_by_product []
              [mkTrade 2 1 "Long"; mkTrade 1 1 "Flat"; mkTrade 3 1 "Short"])))));
    discriminate.
Defined.

(** ** The sessions only feed activeCapital *)

(** C10. For a fixed trade sequence and any two session lists the two results
    agree on every field except activeCapital, which is the sum of the
    sessions' current_capital. *)
Theorem sessions_only_reach_activeCapital :
  forall (Math_pow : float -> float -> float)
         (sessions1 sessions2 : list TradingSession) (trades : list Trade),
    let r1 := calculateUserAnalytics Math_pow sessions1 trades in
    let r2 := calculateUserAnalytics Math_pow sessions2 trades in
    r1 = withActiveCapital (activeCapital r1) r2
    /\ activeCapital r1 = Spec.sum (map current_capital sessions1)
    /\ activeCapital r2 = Spec.sum (map current_capital sessions2)
    /\ sharpeRatio r1 = sharpeRatio r2
    /\ maxDrawdown r1 = maxDrawdown r2
    /\ maxDrawdownAmount r1 = maxDrawdownAmount r2
    /\ profitFactor r1 = profitFactor r2
    /\ totalTrades r1 = totalTrades r2
    /\ winRate r1 = winRate r2
    /\ totalPnL r1 = totalPnL r2
    /\ longTrades r1 = longTrades r2
    /\ shortTrades r1 = shortTrades r2
    /\ avgHoldTime r1 = avgHoldTime r2
    /\ bestTime r1 = bestTime r2
    /\ avgRiskPerTrade r1 = avgRiskPerTrade r2
    /\ maxRisk r1 = maxRisk r2
    /\ bestStreak r1 = bestStreak r2
    /\ worstStreak r1 = worstStreak r2
    /\ riskLevel r1 = riskLevel r2.
Proof.
  intros Math_pow sessions1 sessions2 [|trade rest]; cbn zeta;
    repeat split; try reflexivity; apply reduce_sum_map.
Qed.

(** ** No division by zero *)

Lemma watched_div_positive (x y : float) :
  (y >? 0) = true -> watched_div x y = Ok (x / y).
Proof.
  intros Hgt. unfold watched_div. rewrite (gt_zero_not_zero Hgt). reflexivity.
Qed.

Lemma drawdownStep_watched_ok (st : DrawdownState) (trade : Trade) :
  drawdownStep_watched st trade = Ok (drawdownStep st trade).
Proof.
  unfold drawdownStep_watched, drawdownStep. cbn zeta.
  match goal with |- context [ ?d >? dd_maxDrawdownAmount st ] =>
    destruct (d >? dd_maxDrawdownAmount st) end; [|reflexivity].
  match goal with |- context [ ?p >? 0 ] =>
    destruct (p >? 0) eqn:Hpeak end; [|reflexivity].
  rewrite (watched_div_positive _ Hpeak). reflexivity.
Qed.

Lemma drawdownLoop_watched_ok (trades : list Trade) : forall st : DrawdownState,
  drawdownLoop_watched st trades = Ok (fold_left drawdownStep trades st).
Proof.
  induction trades as [|trade rest IH]; intros st; [reflexivity|].
  simpl. rewrite drawdownStep_watched_ok. simpl. apply IH.
Qed.

(** The watched run ends as its last step, the spread into [Math.max],
    does: every division before it goes through. *)
Lemma watched_run (argumentLimit : nat) (Math_pow : float -> float -> float)
      (sessions : list TradingSession) (trades : list Trade) :
  calculateUserAnalytics_watched argumentLimit Math_pow sessions trades
  = if Nat.ltb argumentLimit (length trades) then Raise RangeError
    else Ok (calculateUserAnalytics Math_pow sessions trades).
Proof.
  destruct trades as [|trade rest];
    [destruct argumentLimit; reflexivity|].
  unfold calculateUserAnalytics_watched, calculateUserAnalytics, watched_max.
  rewrite !length_map.
  cbn [length Nat.eqb map watched_div_length]. cbn zeta.
  rewrite drawdownLoop_watched_ok. unfold drawdownLoop.
  destruct (Nat.ltb argumentLimit (S (length rest)));
    match goal with |- context [ if ?l >? 0 then watched_div ?p ?l else _ ] =>
      destruct (l >? 0) eqn:Hloss;
        [rewrite (watched_div_positive p Hloss)|destruct (p >? 0)] end;
    cbn [bind];
    match goal with |- context [ if ?s >? 0 then watched_div ?a ?s else _ ] =>
      destruct (s >? 0) eqn:Hsd;
        [rewrite (watched_div_positive a Hsd)|] end;
    reflexivity.
Qed.






(** ** More facts about binary64 *)

(** Adding to [+0] changes nothing, except that it turns [-0] into [+0]. *)
Lemma zero_add_not_neg_zero (x : float) : is_neg_zero x = false -> 0 + x = x.
Proof.
  unfold is_neg_zero, get_sign, is_zero. intros H.
  apply Prim2SF_inj. rewrite add_spec.
  revert H. rewrite FloatAxioms.eqb_spec.
  destruct (Prim2SF x) as [s | s | | s m e] eqn:Hx; cbn.
  - rewrite FloatAxioms.ltb_spec, div_spec, Hx. destruct s; cbn; congruence.
  - reflexivity.
  - reflexivity.
  - reflexivity.
Qed.

Lemma gt_above_nonnegative (a d : float) :
  (0 <=? a) = true -> (d >? a) = true -> (d >? 0) = true.
Proof.
  unfold gtb. rewrite FloatAxioms.leb_spec, !FloatAxioms.ltb_spec.
  destruct (Prim2SF a) as [sa | sa | | sa ma ea];
    destruct (Prim2SF d) as [sd | sd | | sd md ed]; cbn;
    try destruct sa; try destruct sd; cbn; congruence.
Qed.

Lemma gt_zero_ge_zero (d : float) : (d >? 0) = true -> (0 <=? d) = true.
Proof.
  unfold gtb. rewrite FloatAxioms.leb_spec, FloatAxioms.ltb_spec.
  destruct (Prim2SF d) as [sd | sd | | sd md ed]; cbn;
    try destruct sd; cbn; congruence.
Qed.

(** ** The cumulative P&L chart *)

Lemma nth_error_last_snoc {A : Type} (xs : list A) (x : A) :
  nth_error (xs ++ [x]) (length (xs ++ [x]) - 1) = Some x.
Proof.
  rewrite length_app. simpl. replace (length xs + 1 - 1)%nat with (length xs) by lia.
  rewrite nth_error_app2 by lia. rewrite Nat.sub_diag. reflexivity.
Qed.

(** The four columns of the chart when the reduce resumes after [acc]. *)
Lemma performance_fold (toLocaleDateString : string -> string)
      (rows : list Page.TradeRow) :
  forall (index : nat) (acc : list Page.PerformancePoint),
    let trades := map Page.trade_fields rows in
    let points :=
      Page.reduce_indexed (Page.performanceStep toLocaleDateString) rows index acc in
    map Page.pp_trade points
    = map Page.pp_trade acc ++ seq (index + 1) (length rows)
    /\ map Page.pp_daily points
       = map Page.pp_daily acc ++ map profit_loss trades
    /\ map Page.pp_date points
       = map Page.pp_date acc
         ++ map (fun row => toLocaleDateString (Page.created_at row)) rows
    /\ map Page.pp_cumulative points
       = map Page.pp_cumulative acc
         ++ match trades with
            | [] => []
            | t :: rest =>
                let first :=
                  match nth_error acc (length acc - 1) with
                  | Some lastPoint => Page.pp_cumulative lastPoint + profit_loss t
                  | None => profit_loss t
                  end in
                first :: Spec.cumulative first (map profit_loss rest)
            end.
Proof.
  induction rows as [|row rest IH]; intros index acc; cbn zeta.
  - simpl. rewrite !app_nil_r. auto.
  - simpl Page.reduce_indexed.
    destruct (IH (S index) (Page.performanceStep toLocaleDateString acc row index))
      as (Ht & Hd & Hl & Hc).
    rewrite Ht, Hd, Hl, Hc. unfold Page.performanceStep.
    rewrite !map_app, <- !app_assoc. cbn [map app length seq Page.pp_trade
      Page.pp_daily Page.pp_date Page.pp_cumulative].
    replace (S index + 1)%nat with (S (index + 1)) by lia.
    repeat split; try reflexivity.
    f_equal. f_equal.
    destruct rest as [|row' rest']; [reflexivity|].
    cbn [map]. rewrite nth_error_last_snoc. reflexivity.
Qed.

Lemma last_cumulative_cons (rest : list float) : forall (p acc d : float),
  last (Spec.cumulative acc (p :: rest)) d = fold_left add (p :: rest) acc.
Proof.
  induction rest as [|p' rest' IH]; intros p acc d; [reflexivity|].
  transitivity (fold_left add (p' :: rest') (acc + p)); [|reflexivity].
  rewrite <- (IH p' (acc + p) d). reflexivity.
Qed.

Lemma fold_left_add_last (pnl : list float) (acc : float) :
  fold_left add pnl acc = last (Spec.cumulative acc pnl) acc.
Proof.
  destruct pnl as [|p rest]; [reflexivity|].
  symmetry. apply last_cumulative_cons.
Qed.

Lemma totalPnL_is_sum (Math_pow : float -> float -> float)
      (sessions : list TradingSession) (trades : list Trade) :
  totalPnL (calculateUserAnalytics Math_pow sessions trades)
  = Spec.sum (map profit_loss trades).
Proof.
  destruct trades as [|t rest]; [reflexivity|].
  unfold calculateUserAnalytics. cbn [length Nat.eqb totalPnL].
  apply reduce_sum_map.
Qed.

(** X1. The chart has one point per trade, in the order of the trades: the
    points are numbered 1, 2, ..., their daily value is the trade's P&L and
    their date the local date of the trade's own created_at. *)
Theorem performanceData_one_point_per_trade :
  forall (toLocaleDateString : string -> string) (rows : list Page.TradeRow),
    let points := Page.performanceData toLocaleDateString rows in
    length points = length rows
    /\ map Page.pp_trade points = seq 1 (length rows)
    /\ map Page.pp_daily points
       = map (fun row => profit_loss (Page.trade_fields row)) rows
    /\ map Page.pp_date points
       = map (fun row => toLocaleDateString (Page.created_at row)) rows.
Proof.
  intros toLocaleDateString rows. cbn zeta. unfold Page.performanceData.
  destruct (performance_fold toLocaleDateString rows 0 []) as (Ht & Hd & Hl & _).
  cbn [map app Nat.add] in *. rewrite map_map in Hd.
  repeat split; try assumption.
  rewrite <- (length_map Page.pp_daily), Hd. apply length_map.
Qed.

(** X2. The chart's cumulative column starts at the first trade's P&L and
    adds each following P&L to the point before.  Unless the first P&L is
    negative zero, the column is the running sum the drawdown walk uses and
    its last point equals the reported totalPnL. *)
Theorem performanceData_ends_at_totalPnL :
  forall (Math_pow : float -> float -> float)
         (toLocaleDateString : string -> string)
         (sessions : list TradingSession) (rows : list Page.TradeRow),
    let trades := map Page.trade_fields rows in
    let column :=
      map Page.pp_cumulative (Page.performanceData toLocaleDateString rows) in
    column
    = match trades with
      | [] => []
      | t :: rest =>
          profit_loss t :: Spec.cumulative (profit_loss t) (map profit_loss rest)
      end
    /\ (is_neg_zero (hd 0 (map profit_loss trades)) = false ->
        column = Spec.cumulative 0 (map profit_loss trades)
        /\ last column 0
           = totalPnL (calculateUserAnalytics Math_pow sessions trades)).
Proof.
  intros Math_pow toLocaleDateString sessions rows. cbn zeta.
  unfold Page.performanceData.
  destruct (performance_fold toLocaleDateString rows 0 []) as (_ & _ & _ & Hc).
  cbn zeta in Hc. cbn [map app length Nat.sub nth_error] in Hc. rewrite Hc.
  split; [destruct (map Page.trade_fields rows); reflexivity|].
  intros Hnz. rewrite totalPnL_is_sum. unfold Spec.sum.
  rewrite fold_left_add_last.
  destruct (map Page.trade_fields rows) as [|t rest]; [split; reflexivity|].
  cbn [map hd] in Hnz. cbn [map Spec.cumulative].
  rewrite (zero_add_not_neg_zero _ Hnz). split; reflexivity.
Qed.

(** Three trades: the chart ends at 10 - 20 + 5 = -5, the totalPnL. *)
Lemma performanceData_ends_at_totalPnL_witness :
  map Page.pp_cumulative
    (Page.performanceData (fun created => created)
       [Page.mkTradeRow "2024-03-01" (mkTrade 10 1 "Long");
        Page.mkTradeRow "2024-03-01" (mkTrade (-20) (-2) "Short");
        Page.mkTradeRow "2024-03-02" (mkTrade 5 1 "Long")])
  = Spec.cumulative 0 [10; -20; 5]
  /\ last (map Page.pp_cumulative
        (Page.performanceData (fun created => created)
           [Page.mkTradeRow "2024-03-01" (mkTrade 10 1 "Long");
            Page.mkTradeRow "2024-03-01" (mkTrade (-20) (-2) "Short");
            Page.mkTradeRow "2024-03-02" (mkTrade 5 1 "Long")])) 0
     = totalPnL (calculateUserAnalytics pow_by_product []
         [mkTrade 10 1 "Long"; mkTrade (-20) (-2) "Short"; mkTrade 5 1 "Long"]).
Proof.
  apply (proj2 (performanceData_ends_at_totalPnL pow_by_product
                  (fun created => created) []
                  [Page.mkTradeRow "2024-03-01" (mkTrade 10 1 "Long");
                   Page.mkTradeRow "2024-03-01" (mkTrade (-20) (-2) "Short");
                   Page.mkTradeRow "2024-03-02" (mkTrade 5 1 "Long")])).
  vm_compute. reflexivity.
Defined.

(** ** What the page shows for the edge values *)

(** X3. With no trades the aggregation guards its own ratios, but the page
    divides the long and short counts by totalTrades without a guard: both
    percentages are NaN (0/0) while winRate is 0, whatever the sessions. *)
Theorem side_percentages_nan_without_trades :
  forall (Math_pow : float -> float -> float) (sessions : list TradingSession),
    let a := calculateUserAnalytics Math_pow sessions [] in
    is_nan (Page.longSharePercent a) = true
    /\ is_nan (Page.shortSharePercent a) = true
    /\ winRate a = 0
    /\ is_nan (winRate a) = false
    /\ totalTrades a = 0%nat.
Proof.
  intros Math_pow sessions. cbn zeta. repeat split; vm_compute; reflexivity.
Qed.

(** X4. The sentinels reach the captions: a journal with profit and no
    losing trade (profit factor 999) is captioned "Strong performance", and
    a journal whose returns have zero standard deviation (Sharpe ratio 0) is
    captioned "Below average", as is the empty journal, whose profit factor
    is captioned "Needs improvement". *)
Theorem captions_of_sentinels :
  forall (Math_pow : float -> float -> float) (sessions : list TradingSession),
    (forall trades : list Trade,
        trades <> [] ->
        filter (fun trade => profit_loss trade <? 0) trades = [] ->
        (Spec.grossProfit trades >? 0) = true ->
        Page.profitFactorLabel (calculateUserAnalytics Math_pow sessions trades)
        = "Strong performance"%string)
    /\ (forall trades : list Trade,
           trades <> [] ->
           is_zero (Spec.populationStdDev Math_pow (map roi trades)) = true ->
           Page.sharpeLabel (calculateUserAnalytics Math_pow sessions trades)
           = "Below average"%string)
    /\ Page.sharpeLabel (calculateUserAnalytics Math_pow sessions [])
       = "Below average"%string
    /\ Page.profitFactorLabel (calculateUserAnalytics Math_pow sessions [])
       = "Needs improvement"%string.
Proof.
  intros Math_pow sessions. split; [|split; [|split; reflexivity]].
  - intros trades Hne Hnone Hprofit. unfold Page.profitFactorLabel.
    rewrite (profitFactor_spec_eq Math_pow sessions Hne).
    unfold Spec.profitFactor, Spec.grossLoss, Spec.isLoss.
    rewrite Hnone, Hprofit. reflexivity.
  - intros trades Hne Hz. unfold Page.sharpeLabel.
    rewrite (sharpeRatio_spec_eq Math_pow sessions Hne). cbn zeta.
    rewrite (zero_not_gt_zero Hz). reflexivity.
Qed.

(** Three winning trades: "Strong performance". *)
Lemma captions_of_sentinels_witness :
  Page.profitFactorLabel (calculateUserAnalytics pow_by_product []
    [mkTrade 10 1 "Long"; mkTrade 20 2 "Long"; mkTrade 30 1 "Short"])
  = "Strong performance"%string.
Proof.
  apply (proj1 (captions_of_sentinels pow_by_product []));
    [discriminate | reflexivity | vm_compute; reflexivity].
Defined.

(** ** The display name *)

Lemma before_separator_without (sep : ascii) (s : string) :
  ~ In sep (list_ascii_of_string (before_separator sep s)).
Proof.
  induction s as [|c rest IH]; simpl; [tauto|].
  destruct (Ascii.eqb c sep) eqn:Hc; simpl; [tauto|].
  intros [Heq | Hin]; [|exact (IH Hin)].
  apply Ascii.eqb_neq in Hc. contradiction.
Qed.

Lemma truthy_string_some (s : option string) :
  truthy_string s = true -> exists v, s = Some v /\ v <> ""%string.
Proof.
  destruct s as [v|]; simpl; [|discriminate].
  intros H. exists v. split; [reflexivity|].
  intros ->. discriminate.
Qed.

Lemma before_separator_splits (sep : ascii) (s : string) :
  s = before_separator sep s
  \/ exists rest, s = String.append (before_separator sep s) (String sep rest).
Proof.
  induction s as [|c rest IH]; [left; reflexivity|].
  simpl. destruct (Ascii.eqb_spec c sep) as [-> | Hc].
  - right. exists rest. reflexivity.
  - destruct IH as [IH | [tail IH]].
    + left. simpl. congruence.
    + right. exists tail. simpl. congruence.
Qed.

(** X5. The display name is never empty.  A non-empty username wins; after
    it a non-empty display_name.  Otherwise the name is the part of the
    e-mail address before its first '@' (the address itself when it has no
    '@') whenever that part is not empty, and "User" when that part is
    empty, when there is no e-mail or no user; in this fallback the name
    holds no '@'. *)
Theorem getUserDisplayName_never_empty :
  forall user : option Page.User,
    let name := Page.getUserDisplayName user in
    name <> ""%string
    /\ (forall s : string,
           Page.metadata_field Page.username user = Some s -> s <> ""%string ->
           name = s)
    /\ (forall s : string,
           truthy_string (Page.metadata_field Page.username user) = false ->
           Page.metadata_field Page.display_name user = Some s -> s <> ""%string ->
           name = s)
    /\ (truthy_string (Page.metadata_field Page.username user) = false ->
        truthy_string (Page.metadata_field Page.display_name user) = false ->
        (forall (u : Page.User) (e : string),
            user = Some u -> Page.email u = Some e ->
            let part := before_separator "@"%char e in
            (part <> ""%string -> name = part)
            /\ (part = ""%string -> name = "User"%string)
            /\ ~ In "@"%char (list_ascii_of_string part)
            /\ (e = part
                \/ exists rest, e = String.append part (String "@"%char rest)))
        /\ (user = None \/ (exists u, user = Some u /\ Page.email u = None) ->
            name = "User"%string)
        /\ ~ In "@"%char (list_ascii_of_string name)).
Proof.
  intros user. cbn zeta. unfold Page.getUserDisplayName.
  split; [|split; [|split]].
  - destruct (truthy_string (Page.metadata_field Page.username user)) eqn:Hu.
    { apply truthy_string_some in Hu as (v & -> & Hv). exact Hv. }
    destruct (truthy_string (Page.metadata_field Page.display_name user)) eqn:Hd.
    { apply truthy_string_some in Hd as (v & -> & Hv). exact Hv. }
    destruct (truthy_string (Page.email_local_part user)) eqn:He.
    { apply truthy_string_some in He as (v & -> & Hv). exact Hv. }
    discriminate.
  - intros s Hs Hne. rewrite Hs. simpl.
    destruct (String.eqb_spec s ""); [contradiction|reflexivity].
  - intros s Hu Hs Hne. rewrite Hu, Hs. simpl.
    destruct (String.eqb_spec s ""); [contradiction|reflexivity].
  - intros Hu Hd. rewrite Hu, Hd. split; [|split].
    + intros u e -> He. cbn zeta. unfold Page.email_local_part. rewrite He.
      cbn [truthy_string].
      split; [|split; [|split]].
      * intros Hpart.
        destruct (String.eqb_spec (before_separator "@" e) "");
          [contradiction|reflexivity].
      * intros ->. reflexivity.
      * apply before_separator_without.
      * apply before_separator_splits.
    + intros [-> | (u & -> & He)]; [reflexivity|].
      unfold Page.email_local_part. rewrite He. reflexivity.
    + destruct (truthy_string (Page.email_local_part user)) eqn:He.
      * unfold Page.email_local_part in *.
        destruct user as [u|]; [|discriminate].
        destruct (Page.email u) as [e|]; [|discriminate].
        apply before_separator_without.
      * simpl. intros [H|[H|[H|[H|[]]]]]; discriminate.
Qed.

(** A user without metadata whose address is trader@example.com is shown as
    "trader". *)
Lemma getUserDisplayName_never_empty_witness :
  Page.getUserDisplayName
    (Some (Page.mkUser None (Some "trader@example.com"%string)))
  = before_separator "@"%char "trader@example.com"
  /\ before_separator "@"%char "trader@example.com" = "trader"%string.
Proof.
  split; [|reflexivity].
  apply (proj1 (proj1 (proj2 (proj2 (proj2 (getUserDisplayName_never_empty
           (Some (Page.mkUser None (Some "trader@example.com"%string))))))
           eq_refl eq_refl)
           (Page.mkUser None (Some "trader@example.com"%string))
           "trader@example.com"%string eq_refl eq_refl)).
  discriminate.
Defined.

(** ** Loading the page's data *)

Lemma Promise_all_resolved {A B : Type} (f : A -> Attempt B) (xs : list A) :
  (forall x, In x xs -> exists b, f x = Resolved b) ->
  exists results, Promise_all (map f xs) = Resolved results
                  /\ map f xs = map (@Resolved B) results.
Proof.
  induction xs as [|x rest IH]; intros Hall.
  - exists []. split; reflexivity.
  - destruct (Hall x (or_introl eq_refl)) as [b Hb].
    destruct IH as (results & Hp & Hm).
    { intros y Hy. apply Hall. right. exact Hy. }
    exists (b :: results). simpl. rewrite Hb, Hp, Hm. split; reflexivity.
Qed.

Lemma Promise_all_rejected {A B : Type} (f : A -> Attempt B) (xs : list A) :
  (exists x e, In x xs /\ f x = Rejected e) ->
  exists e, Promise_all (map f xs) = Rejected e.
Proof.
  induction xs as [|x rest IH]; intros (y & e & Hin & Hy); [destruct Hin|].
  simpl. destruct (f x) as [b|e'] eqn:Hx; [|exists e'; reflexivity].
  destruct Hin as [-> | Hin]; [congruence|].
  destruct IH as [e'' He'']; [exists y, e; auto|].
  rewrite He''. exists e''. reflexivity.
Qed.

(** X6. [loadUserData] always ends with the loading flag off and never
    removes analytics that were present.  When fetching the sessions fails
    nothing else changes; when fetching the trades of some session fails,
    the new sessions are already in place while the trades and the analytics
    keep their previous values.  When every fetch succeeds, the trades are
    the sessions' arrays concatenated in session order; the analytics are
    the aggregation of those trades if they are no more than the engine
    accepts arguments in one call, and keep their previous value otherwise,
    the aggregation having raised inside the [try]. *)
Theorem loadUserData_outcomes :
  forall (argumentLimit : nat) (Math_pow : float -> float -> float)
         (getSessions : Attempt (list Page.SessionRow))
         (getTrades : string -> Attempt (list Page.TradeRow))
         (st : Page.PageState),
    let st' := Page.loadUserData argumentLimit Math_pow getSessions getTrades st in
    Page.loading st' = false
    /\ (Page.analytics st <> None -> Page.analytics st' <> None)
    /\ (forall e, getSessions = Rejected e -> st' = Page.setLoading false st)
    /\ (forall sessionsData s e,
           getSessions = Resolved sessionsData ->
           In s sessionsData -> getTrades (Page.id s) = Rejected e ->
           Page.sessions st' = sessionsData
           /\ Page.allTrades st' = Page.allTrades st
           /\ Page.analytics st' = Page.analytics st)
    /\ (forall sessionsData,
           getSessions = Resolved sessionsData ->
           (forall s, In s sessionsData ->
                      exists ts, getTrades (Page.id s) = Resolved ts) ->
           exists tradesArrays,
             map (fun s => getTrades (Page.id s)) sessionsData
             = map (@Resolved (list Page.TradeRow)) tradesArrays
             /\ Page.sessions st' = sessionsData
             /\ Page.allTrades st' = concat tradesArrays
             /\ ((length (concat tradesArrays) <= argumentLimit)%nat ->
                 Page.analytics st'
                 = Some (calculateUserAnalytics Math_pow
                           (map Page.session_fields sessionsData)
                           (map Page.trade_fields (concat tradesArrays))))
             /\ ((argumentLimit < length (concat tradesArrays))%nat ->
                 Page.analytics st' = Page.analytics st)).
Proof.
  intros argumentLimit Math_pow getSessions getTrades st. cbn zeta.
  unfold Page.loadUserData. split; [|split; [|split; [|split]]].
  - destruct getSessions as [sessionsData|e]; [|reflexivity].
    destruct (Promise_all _); [|reflexivity].
    destruct (calculateUserAnalytics_watched _ _ _ _); reflexivity.
  - intros Hsome. destruct getSessions as [sessionsData|e]; [|exact Hsome].
    destruct (Promise_all _); [|exact Hsome].
    destruct (calculateUserAnalytics_watched _ _ _ _);
      [discriminate|exact Hsome].
  - intros e ->. destruct st; reflexivity.
  - intros sessionsData s e -> Hin Hrej.
    destruct (Promise_all_rejected (fun s => getTrades (Page.id s)) sessionsData)
      as [e' ->].
    { exists s, e. auto. }
    repeat split; reflexivity.
  - intros sessionsData -> Hall.
    destruct (Promise_all_resolved (fun s => getTrades (Page.id s))
                sessionsData Hall) as (results & -> & Hm).
    exists results. split; [exact Hm|].
    rewrite watched_run, length_map.
    destruct (Nat.ltb_spec argumentLimit (length (concat results))) as [Hlt|Hle];
      cbn; repeat split; try reflexivity; intros; lia.
Qed.

(** Two sessions with the same capital and different identifiers, the
    second of which cannot be fetched: the analytics already shown stay as
    they were. *)
Lemma loadUserData_outcomes_witness :
  let shown := calculateUserAnalytics pow_by_product [] [mkTrade 1 1 "Long"] in
  let st := Page.mkPageState []
              [Page.mkTradeRow "2024-03-01" (mkTrade 1 1 "Long")]
              (Some shown) false in
  let getTrades := fun session_id : string =>
    if String.eqb session_id "s1"
    then Resolved [Page.mkTradeRow "2024-03-02" (mkTrade 5 1 "Long")]
    else Rejected (ErrorWith "offline") in
  let st' := Page.loadUserData 1000 pow_by_product
               (Resolved [Page.mkSessionRow "s1" (mkSession 100);
                          Page.mkSessionRow "s2" (mkSession 100)])
               getTrades st in
  Page.sessions st' = [Page.mkSessionRow "s1" (mkSession 100);
                       Page.mkSessionRow "s2" (mkSession 100)]
  /\ Page.allTrades st' = [Page.mkTradeRow "2024-03-01" (mkTrade 1 1 "Long")]
  /\ Page.analytics st' = Some shown.
Proof.
  cbv zeta.
  apply (proj1 (proj2 (proj2 (proj2 (loadUserData_outcomes 1000 pow_by_product
           (Resolved [Page.mkSessionRow "s1" (mkSession 100);
                      Page.mkSessionRow "s2" (mkSession 100)])
           (fun session_id : string =>
              if String.eqb session_id "s1"
              then Resolved [Page.mkTradeRow "2024-03-02" (mkTrade 5 1 "Long")]
              else Rejected (ErrorWith "offline"))
           (Page.mkPageState []
              [Page.mkTradeRow "2024-03-01" (mkTrade 1 1 "Long")]
              (Some (calculateUserAnalytics pow_by_product []
                       [mkTrade 1 1 "Long"])) false)))))
         [Page.mkSessionRow "s1" (mkSession 100);
          Page.mkSessionRow "s2" (mkSession 100)]
         (Page.mkSessionRow "s2" (mkSession 100)) (ErrorWith "offline")
         eq_refl (or_intror (or_introl eq_refl)) eq_refl).
Defined.

(** ** Counts over concatenated sessions *)

Lemma count_app {A : Type} (p : A -> bool) (xs ys : list A) :
  Spec.count p (xs ++ ys) = (Spec.count p xs + Spec.count p ys)%nat.
Proof.
  induction xs as [|x xs IH]; simpl; [reflexivity|]. rewrite IH. lia.
Qed.

Lemma count_concat {A : Type} (p : A -> bool) (arrays : list (list A)) :
  Spec.count p (concat arrays) = list_sum (map (Spec.count p) arrays).
Proof.
  induction arrays as [|a rest IH]; simpl; [reflexivity|].
  rewrite count_app, IH. reflexivity.
Qed.

Lemma totalTrades_is_length (Math_pow : float -> float -> float)
      (sessions : list TradingSession) (trades : list Trade) :
  totalTrades (calculateUserAnalytics Math_pow sessions trades) = length trades.
Proof. destruct trades; reflexivity. Qed.

Lemma longTrades_is_count (Math_pow : float -> float -> float)
      (sessions : list TradingSession) (trades : list Trade) :
  longTrades (calculateUserAnalytics Math_pow sessions trades)
  = Spec.count isLong trades.
Proof. destruct trades; [reflexivity|]. apply length_filter_count. Qed.

Lemma shortTrades_is_count (Math_pow : float -> float -> float)
      (sessions : list TradingSession) (trades : list Trade) :
  shortTrades (calculateUserAnalytics Math_pow sessions trades)
  = Spec.count isShort trades.
Proof. destruct trades; [reflexivity|]. apply length_filter_count. Qed.

(** X7. The page aggregates the sessions' trade arrays concatenated.  Its
    totalTrades, longTrades and shortTrades are the sums, over the sessions,
    of the same counts taken session by session. *)
Theorem counts_add_up_over_sessions :
  forall (Math_pow : float -> float -> float) (sessions : list TradingSession)
         (tradesArrays : list (list Trade)),
    let whole := calculateUserAnalytics Math_pow sessions (concat tradesArrays) in
    let each := map (calculateUserAnalytics Math_pow sessions) tradesArrays in
    totalTrades whole = list_sum (map totalTrades each)
    /\ longTrades whole = list_sum (map longTrades each)
    /\ shortTrades whole = list_sum (map shortTrades each).
Proof.
  intros Math_pow sessions tradesArrays. cbn zeta.
  rewrite totalTrades_is_length, longTrades_is_count, shortTrades_is_count.
  rewrite !map_map.
  rewrite (map_ext _ _ (totalTrades_is_length Math_pow sessions)).
  rewrite (map_ext _ _ (longTrades_is_count Math_pow sessions)).
  rewrite (map_ext _ _ (shortTrades_is_count Math_pow sessions)).
  rewrite !count_concat. repeat split; try reflexivity.
  induction tradesArrays as [|a rest IH]; simpl; [reflexivity|].
  rewrite length_app, IH. reflexivity.
Qed.

(** ** Streaks: bounds and composition *)

Lemma streaks_as_runs (Math_pow : float -> float -> float)
      (sessions : list TradingSession) (trades : list Trade) :
  bestStreak (calculateUserAnalytics Math_pow sessions trades)
  = list_max (Spec.winRuns 0 (map Spec.isWin trades))
  /\ worstStreak (calculateUserAnalytics Math_pow sessions trades)
     = list_max (Spec.lossRuns 0 (map Spec.isWin trades)).
Proof.
  destruct trades as [|trade rest]; [split; reflexivity|].
  unfold calculateUserAnalytics. cbn [length Nat.eqb bestStreak worstStreak].
  unfold streakLoop.
  destruct (streak_fold_runs (trade :: rest) streakInit) as [Hb Hw].
  rewrite Hb, Hw. split; reflexivity.
Qed.

Lemma winRuns_bound (outcomes : list bool) : forall current : nat,
  (list_max (Spec.winRuns current outcomes)
   <= current + Spec.count (fun o => o) outcomes)%nat.
Proof.
  induction outcomes as [|o rest IH]; intros current; [simpl; lia|].
  cbn [Spec.winRuns Spec.count]. rewrite list_max_cons. destruct o.
  - specialize (IH (S current)). lia.
  - specialize (IH O). lia.
Qed.

Lemma lossRuns_bound (outcomes : list bool) : forall current : nat,
  (list_max (Spec.lossRuns current outcomes)
   <= current + Spec.count negb outcomes)%nat.
Proof.
  induction outcomes as [|o rest IH]; intros current; [simpl; lia|].
  cbn [Spec.lossRuns Spec.count]. rewrite list_max_cons. destruct o; cbn [negb].
  - specialize (IH O). lia.
  - specialize (IH (S current)). lia.
Qed.

Lemma winRuns_positive (outcomes : list bool) : forall current : nat,
  (0 < Spec.count (fun o => o) outcomes)%nat ->
  (0 < list_max (Spec.winRuns current outcomes))%nat.
Proof.
  induction outcomes as [|o rest IH]; intros current; [simpl; lia|].
  cbn [Spec.winRuns Spec.count]. rewrite list_max_cons. destruct o; [lia|].
  intros H. specialize (IH O H). lia.
Qed.

Lemma count_map {A B : Type} (f : A -> B) (p : B -> bool) (xs : list A) :
  Spec.count p (map f xs) = Spec.count (fun x => p (f x)) xs.
Proof.
  induction xs as [|x xs IH]; simpl; [reflexivity|]. rewrite IH. reflexivity.
Qed.

Lemma count_split {A : Type} (p : A -> bool) (xs : list A) :
  (Spec.count p xs + Spec.count (fun x => negb (p x)) xs = length xs)%nat.
Proof.
  induction xs as [|x xs IH]; simpl; [reflexivity|]. destruct (p x); simpl; lia.
Qed.

(** X8. bestStreak is at most the number of winning trades and worstStreak
    at most the number of the others, so that together they never exceed
    totalTrades; bestStreak is zero exactly when no trade wins. *)
Theorem streaks_within_counts :
  forall (Math_pow : float -> float -> float) (sessions : list TradingSession)
         (trades : list Trade),
    let r := calculateUserAnalytics Math_pow sessions trades in
    let wins := Spec.count (fun t => profit_loss t >? 0) trades in
    (bestStreak r <= wins)%nat
    /\ (worstStreak r <= totalTrades r - wins)%nat
    /\ (bestStreak r + worstStreak r <= totalTrades r)%nat
    /\ (bestStreak r = 0%nat <-> wins = 0%nat).
Proof.
  intros Math_pow sessions trades. cbn zeta.
  destruct (streaks_as_runs Math_pow sessions trades) as [-> ->].
  rewrite totalTrades_is_length.
  pose proof (winRuns_bound (map Spec.isWin trades) 0) as Hb.
  pose proof (lossRuns_bound (map Spec.isWin trades) 0) as Hw.
  pose proof (winRuns_positive (map Spec.isWin trades) 0) as Hp.
  rewrite count_map in Hb, Hw, Hp.
  pose proof (count_split Spec.isWin trades) as Hs.
  unfold Spec.isWin in *. simpl in Hb, Hw.
  repeat split; lia.
Qed.

Lemma last_cons_default {A : Type} (x : A) (xs : list A) (d d' : A) :
  last (x :: xs) d = last (x :: xs) d'.
Proof.
  revert x. induction xs as [|y rest IH]; intros x; [reflexivity|].
  change (last (y :: rest) d = last (y :: rest) d'). apply IH.
Qed.

Lemma winRuns_app (xs ys : list bool) : forall current : nat,
  Spec.winRuns current (xs ++ ys)
  = Spec.winRuns current xs
    ++ Spec.winRuns (last (Spec.winRuns current xs) current) ys.
Proof.
  induction xs as [|o rest IH]; intros current; [reflexivity|].
  cbn [app Spec.winRuns]. rewrite IH. f_equal. f_equal. f_equal.
  destruct rest; [reflexivity|]. cbn [Spec.winRuns].
  apply (last_cons_default _ (_ :: _)).
Qed.

Lemma lossRuns_app (xs ys : list bool) : forall current : nat,
  Spec.lossRuns current (xs ++ ys)
  = Spec.lossRuns current xs
    ++ Spec.lossRuns (last (Spec.lossRuns current xs) current) ys.
Proof.
  induction xs as [|o rest IH]; intros current; [reflexivity|].
  cbn [app Spec.lossRuns]. rewrite IH. f_equal. f_equal. f_equal.
  destruct rest; [reflexivity|]. cbn [Spec.lossRuns].
  apply (last_cons_default _ (_ :: _)).
Qed.

Lemma last_le_list_max (xs : list nat) : (last xs 0 <= list_max xs)%nat.
Proof.
  induction xs as [|x rest IH]; [simpl; lia|].
  rewrite list_max_cons. destruct rest as [|y rest']; [simpl; lia|].
  change (last (x :: y :: rest') 0%nat) with (last (y :: rest') 0%nat). lia.
Qed.

Lemma winRuns_shift (outcomes : list bool) : forall low extra : nat,
  (list_max (Spec.winRuns low outcomes)
   <= list_max (Spec.winRuns (extra + low) outcomes)
   <= extra + list_max (Spec.winRuns low outcomes))%nat.
Proof.
  induction outcomes as [|o rest IH]; intros low extra; [simpl; lia|].
  cbn [Spec.winRuns]. rewrite !list_max_cons. destruct o.
  - specialize (IH (S low) extra).
    replace (S (extra + low)) with (extra + S low)%nat by lia. lia.
  - specialize (IH O O). simpl in IH. lia.
Qed.

Lemma lossRuns_shift (outcomes : list bool) : forall low extra : nat,
  (list_max (Spec.lossRuns low outcomes)
   <= list_max (Spec.lossRuns (extra + low) outcomes)
   <= extra + list_max (Spec.lossRuns low outcomes))%nat.
Proof.
  induction outcomes as [|o rest IH]; intros low extra; [simpl; lia|].
  cbn [Spec.lossRuns]. rewrite !list_max_cons. destruct o.
  - specialize (IH O O). simpl in IH. lia.
  - specialize (IH (S low) extra).
    replace (S (extra + low)) with (extra + S low)%nat by lia. lia.
Qed.

(** X9. Appending one sequence of trades to another, as the page does with
    the sessions' arrays, never shortens a streak and never makes one longer
    than the two parts' streaks put end to end:
    max (best a) (best b) <= best (a ++ b) <= best a + best b, and the same
    for worstStreak. *)
Theorem streaks_of_appended_trades :
  forall (Math_pow : float -> float -> float) (sessions : list TradingSession)
         (a b : list Trade),
    let ra := calculateUserAnalytics Math_pow sessions a in
    let rb := calculateUserAnalytics Math_pow sessions b in
    let rab := calculateUserAnalytics Math_pow sessions (a ++ b) in
    (Nat.max (bestStreak ra) (bestStreak rb) <= bestStreak rab
     <= bestStreak ra + bestStreak rb)%nat
    /\ (Nat.max (worstStreak ra) (worstStreak rb) <= worstStreak rab
        <= worstStreak ra + worstStreak rb)%nat.
Proof.
  intros Math_pow sessions a b. cbn zeta.
  destruct (streaks_as_runs Math_pow sessions a) as [-> ->].
  destruct (streaks_as_runs Math_pow sessions b) as [-> ->].
  destruct (streaks_as_runs Math_pow sessions (a ++ b)) as [-> ->].
  rewrite map_app, winRuns_app, lossRuns_app, !list_max_app.
  pose proof (last_le_list_max (Spec.winRuns 0 (map Spec.isWin a))) as Hlw.
  pose proof (last_le_list_max (Spec.lossRuns 0 (map Spec.isWin a))) as Hll.
  pose proof (winRuns_shift (map Spec.isWin b) O
                (last (Spec.winRuns 0 (map Spec.isWin a)) O)) as Hsw.
  pose proof (lossRuns_shift (map Spec.isWin b) O
                (last (Spec.lossRuns 0 (map Spec.isWin a)) O)) as Hsl.
  rewrite Nat.add_0_r in Hsw, Hsl. lia.
Qed.

(** ** Drawdown: what the loop maintains *)

Lemma ge_zero_not_nan (x : float) : (0 <=? x) = true -> is_nan x = false.
Proof.
  unfold is_nan. rewrite FloatAxioms.leb_spec, FloatAxioms.eqb_spec.
  destruct (Prim2SF x) as [s | s | | s m e]; cbn; try destruct s; cbn;
    try congruence; intros _;
    rewrite Z.compare_refl, Pos.compare_cont_refl; reflexivity.
Qed.

(** The recorded amount is never below zero, and as long as it is not above
    zero the recorded percentage is still the initial 0. *)
Lemma drawdownStep_keeps (st : DrawdownState) (trade : Trade) :
  (0 <=? dd_maxDrawdownAmount st) = true
  /\ ((dd_maxDrawdownAmount st >? 0) = false -> dd_maxDrawdown st = 0) ->
  (0 <=? dd_maxDrawdownAmount (drawdownStep st trade)) = true
  /\ ((dd_maxDrawdownAmount (drawdownStep st trade) >? 0) = false ->
      dd_maxDrawdown (drawdownStep st trade) = 0).
Proof.
  intros [Hge Hzero]. unfold drawdownStep. cbn zeta.
  match goal with |- context [ ?d >? dd_maxDrawdownAmount st ] =>
    destruct (d >? dd_maxDrawdownAmount st) eqn:Hd end;
    cbn [dd_maxDrawdownAmount dd_maxDrawdown]; [|auto].
  pose proof (gt_above_nonnegative Hge Hd) as Hpos.
  split; [apply gt_zero_ge_zero; exact Hpos|].
  intros Hnot. congruence.
Qed.

Lemma drawdownLoop_keeps (trades : list Trade) : forall st : DrawdownState,
  (0 <=? dd_maxDrawdownAmount st) = true
  /\ ((dd_maxDrawdownAmount st >? 0) = false -> dd_maxDrawdown st = 0) ->
  (0 <=? dd_maxDrawdownAmount (fold_left drawdownStep trades st)) = true
  /\ ((dd_maxDrawdownAmount (fold_left drawdownStep trades st) >? 0) = false ->
      dd_maxDrawdown (fold_left drawdownStep trades st) = 0).
Proof.
  induction trades as [|trade rest IH]; intros st Hst; [exact Hst|].
  simpl. apply IH. apply drawdownStep_keeps. exact Hst.
Qed.

(** X10. Whatever the P&L values, NaN and infinities included, the reported
    maxDrawdownAmount is a number that is not below zero.  When it is not
    above zero, maxDrawdownPercent is 0 and riskLevel is Low; so a Moderate
    or High rating always comes with a positive drawdown amount. *)
Theorem drawdown_amount_never_negative :
  forall (Math_pow : float -> float -> float) (sessions : list TradingSession)
         (trades : list Trade),
    let r := calculateUserAnalytics Math_pow sessions trades in
    (0 <=? maxDrawdownAmount r) = true
    /\ is_nan (maxDrawdownAmount r) = false
    /\ ((maxDrawdownAmount r >? 0) = false ->
        maxDrawdown r = 0 /\ riskLevel r = Low)
    /\ (riskLevel r <> Low -> (maxDrawdownAmount r >? 0) = true).
Proof.
  intros Math_pow sessions trades. cbn zeta.
  assert (Hinv : (0 <=? maxDrawdownAmount
                          (calculateUserAnalytics Math_pow sessions trades)) = true
                 /\ ((maxDrawdownAmount
                        (calculateUserAnalytics Math_pow sessions trades) >? 0) = false ->
                     maxDrawdown (calculateUserAnalytics Math_pow sessions trades) = 0)).
  { destruct trades as [|trade rest]; [split; reflexivity|].
    unfold calculateUserAnalytics.
    cbn [length Nat.eqb maxDrawdownAmount maxDrawdown].
    apply (drawdownLoop_keeps (trade :: rest) drawdownInit).
    split; reflexivity. }
  destruct Hinv as [Hge Hzero].
  assert (Hlow : maxDrawdown (calculateUserAnalytics Math_pow sessions trades) = 0 ->
                 riskLevel (calculateUserAnalytics Math_pow sessions trades) = Low).
  { destruct trades as [|trade rest]; [reflexivity|].
    unfold calculateUserAnalytics.
    cbn [length Nat.eqb maxDrawdown riskLevel]. intros ->. reflexivity. }
  split; [exact Hge|]. split; [apply ge_zero_not_nan; exact Hge|]. split.
  - intros Hnot. split; [apply Hzero; exact Hnot|apply Hlow, Hzero; exact Hnot].
  - intros Hrisk.
    destruct (maxDrawdownAmount (calculateUserAnalytics Math_pow sessions trades) >? 0)
      eqn:Hpos; [reflexivity|].
    exfalso. apply Hrisk, Hlow, Hzero. reflexivity.
Qed.

(** Three trades that only gain: the running P&L never falls below its peak,
    the amount stays 0, and with it the percentage and the rating. *)
Lemma drawdown_amount_never_negative_witness :
  maxDrawdown (calculateUserAnalytics pow_by_product []
     [mkTrade 10 1 "Long"; mkTrade 20 2 "Long"; mkTrade 30 1 "Short"]) = 0
  /\ riskLevel (calculateUserAnalytics pow_by_product []
       [mkTrade 10 1 "Long"; mkTrade 20 2 "Long"; mkTrade 30 1 "Short"]) = Low.
Proof.
  apply (proj1 (proj2 (proj2 (drawdown_amount_never_negative pow_by_product []
           [mkTrade 10 1 "Long"; mkTrade 20 2 "Long"; mkTrade 30 1 "Short"])))).
  vm_compute. reflexivity.
Defined.

(** ** The chat's trading context *)

(** X11. The chat assistant computes its own total P&L and win rate for the
    trades it is given; for every trade list, the empty one included, they
    are the totalPnL and winRate of [calculateUserAnalytics]. *)
Theorem chat_context_agrees_with_analytics :
  forall (Math_pow : float -> float -> float) (sessions : list TradingSession)
         (trades : list Trade),
    let r := calculateUserAnalytics Math_pow sessions trades in
    Chat.context_totalPnL trades = totalPnL r
    /\ Chat.context_winRate trades = winRate r.
Proof.
  intros Math_pow sessions [|trade rest]; cbn zeta; split; reflexivity.
Qed.

(** ** NaN and zero in sums and products *)

Lemma Prim2SF_nan (x : float) : is_nan x = true -> Prim2SF x = S754_nan.
Proof.
  unfold is_nan. rewrite FloatAxioms.eqb_spec.
  destruct (Prim2SF x) as [s | s | | s m e]; cbn; try destruct s; cbn;
    try congruence; rewrite Z.compare_refl, Pos.compare_cont_refl; discriminate.
Qed.

Lemma nan_add_left (x y : float) : is_nan x = true -> is_nan (x + y) = true.
Proof.
  intros Hx. apply Prim2SF_nan in Hx.
  assert (H : Prim2SF (x + y) = S754_nan) by (rewrite add_spec, Hx; reflexivity).
  unfold is_nan. rewrite FloatAxioms.eqb_spec, H. reflexivity.
Qed.

Lemma nan_add_right (x y : float) : is_nan y = true -> is_nan (x + y) = true.
Proof.
  intros Hy. apply Prim2SF_nan in Hy.
  assert (H : Prim2SF (x + y) = S754_nan).
  { rewrite add_spec, Hy. destruct (Prim2SF x); reflexivity. }
  unfold is_nan. rewrite FloatAxioms.eqb_spec, H. reflexivity.
Qed.

(** A product with a zero factor is zero or NaN, never a truthy number. *)
Lemma zero_factor_falsy (x y : float) :
  is_zero x = true \/ is_zero y = true -> truthy_number (x * y) = false.
Proof.
  unfold truthy_number, is_zero, is_nan.
  rewrite !FloatAxioms.eqb_spec, mul_spec.
  destruct (Prim2SF x) as [sx | sx | | sx mx ex];
    destruct (Prim2SF y) as [sy | sy | | sy my ey]; cbn;
    intros [H | H]; try discriminate H; try reflexivity;
    try destruct sx; try destruct sy; try reflexivity; try discriminate H.
Qed.

(** ** A NaN P&L in the journal *)

Lemma sum_nan_sticks (xs : list float) : forall acc : float,
  is_nan acc = true -> is_nan (fold_left add xs acc) = true.
Proof.
  induction xs as [|x rest IH]; intros acc Hacc; [exact Hacc|].
  simpl. apply IH. apply nan_add_left. exact Hacc.
Qed.

Lemma sum_nan_enters (xs : list float) : forall acc : float,
  (exists x, In x xs /\ is_nan x = true) ->
  is_nan (fold_left add xs acc) = true.
Proof.
  induction xs as [|x rest IH]; intros acc (y & Hin & Hy); [destruct Hin|].
  simpl. destruct Hin as [-> | Hin].
  - apply sum_nan_sticks. apply nan_add_right. exact Hy.
  - apply IH. exists y. auto.
Qed.

(** X12. The aggregation does not filter its input: as soon as one trade of
    the journal has a NaN profit_loss, the reported totalPnL is NaN. *)
Theorem nan_profit_loss_poisons_totalPnL :
  forall (Math_pow : float -> float -> float) (sessions : list TradingSession)
         (trades : list Trade) (t : Trade),
    In t trades -> is_nan (profit_loss t) = true ->
    is_nan (totalPnL (calculateUserAnalytics Math_pow sessions trades)) = true.
Proof.
  intros Math_pow sessions trades t Hin Hnan.
  rewrite totalPnL_is_sum. apply sum_nan_enters.
  exists (profit_loss t). split; [apply in_map; exact Hin|exact Hnan].
Qed.

(** One NaN among three trades. *)
Lemma nan_profit_loss_poisons_totalPnL_witness :
  is_nan (totalPnL (calculateUserAnalytics pow_by_product []
     [mkTrade 10 1 "Long"; mkTrade nan 0 "Long"; mkTrade 5 1 "Short"])) = true.
Proof.
  apply (@nan_profit_loss_poisons_totalPnL pow_by_product []
           [mkTrade 10 1 "Long"; mkTrade nan 0 "Long"; mkTrade 5 1 "Short"]
           (mkTrade nan 0 "Long")).
  - right. left. reflexivity.
  - reflexivity.
Defined.

(** ** The trade form *)

Lemma nonempty_true (s : string) : TradeForm.nonempty s = true <-> s <> ""%string.
Proof.
  unfold TradeForm.nonempty. destruct (String.eqb_spec s ""); simpl; split;
    congruence.
Qed.

Lemma handleSubmit_sends (Number_of_string : string -> float)
      (trim : string -> string) (sessionId : string)
      (onAddTrade : TradeForm.NewTrade -> Attempt unit) (f : TradeForm.FormState) :
  TradeForm.nonempty (TradeForm.symbol f) = true ->
  TradeForm.nonempty (TradeForm.type f) = true ->
  TradeForm.nonempty (TradeForm.volumeLot f) = true ->
  TradeForm.nonempty (TradeForm.openPrice f) = true ->
  TradeForm.nonempty (TradeForm.pnlUsd f) = true ->
  TradeForm.sent (TradeForm.handleSubmit Number_of_string trim sessionId onAddTrade f)
  = Some (TradeForm.tradeOf Number_of_string trim sessionId f).
Proof.
  intros Hs Ht Hv Ho Hp. unfold TradeForm.handleSubmit.
  rewrite Hs, Ht, Hv, Ho, Hp. cbn [negb orb].
  destruct (onAddTrade _); reflexivity.
Qed.

(** X13. The form checks that its five required fields are not empty and
    nothing else: the trade is sent with profit_loss = Number(pnlUsd)
    whatever that number is.  When the P&L text is not a number, the trade
    goes out with a NaN profit_loss. *)
Theorem form_sends_unparsed_profit_loss :
  forall (Number_of_string : string -> float) (trim : string -> string)
         (sessionId : string) (onAddTrade : TradeForm.NewTrade -> Attempt unit)
         (f : TradeForm.FormState),
    TradeForm.symbol f <> ""%string -> TradeForm.type f <> ""%string ->
    TradeForm.volumeLot f <> ""%string -> TradeForm.openPrice f <> ""%string ->
    TradeForm.pnlUsd f <> ""%string ->
    exists trade,
      TradeForm.sent
        (TradeForm.handleSubmit Number_of_string trim sessionId onAddTrade f)
      = Some trade
      /\ TradeForm.nt_profit_loss trade = Number_of_string (TradeForm.pnlUsd f)
      /\ (is_nan (Number_of_string (TradeForm.pnlUsd f)) = true ->
          is_nan (profit_loss (TradeForm.asTrade trade)) = true).
Proof.
  intros Number_of_string trim sessionId onAddTrade f Hs Ht Hv Ho Hp.
  exists (TradeForm.tradeOf Number_of_string trim sessionId f).
  split; [|split; [reflexivity|auto]].
  apply handleSubmit_sends; apply nonempty_true; assumption.
Qed.

(** A form whose P&L field holds "n/a", with a [Number] that answers NaN
    for it. *)
Lemma form_sends_unparsed_profit_loss_witness :
  exists trade,
    TradeForm.sent
      (TradeForm.handleSubmit
         (fun s => if String.eqb s "n/a" then nan else 1) (fun s => s) "s1"
         (fun _ => Resolved tt)
         (TradeForm.mkFormState "XAUUSD" "Buy" "1" "1" "" "" "" "" "" "" "Other"
            "n/a" "" false false None))
    = Some trade
    /\ TradeForm.nt_profit_loss trade = nan
    /\ (is_nan nan = true -> is_nan (profit_loss (TradeForm.asTrade trade)) = true).
Proof.
  apply (@form_sends_unparsed_profit_loss
           (fun s => if String.eqb s "n/a" then nan else 1) (fun s => s) "s1"
           (fun _ => Resolved tt)
           (TradeForm.mkFormState "XAUUSD" "Buy" "1" "1" "" "" "" "" "" "" "Other"
              "n/a" "" false false None)); discriminate.
Defined.

(** X14. The ROI is never the result of a division by zero or by NaN: it is
    either 0, or P&L / margin * 100 for a margin that is neither.  A volume
    or an open price that reads as zero gives ROI 0, not an infinity. *)
Theorem form_roi_guarded :
  forall (Number_of_string : string -> float) (f : TradeForm.FormState),
    let margin := TradeForm.calculatedMargin Number_of_string f in
    let roi := TradeForm.calculatedROI Number_of_string f in
    (roi = 0
     \/ (is_zero margin = false /\ is_nan margin = false
         /\ roi = Number_of_string (TradeForm.pnlUsd f) / margin * 100))
    /\ (is_zero (Number_of_string (TradeForm.volumeLot f)) = true
        \/ is_zero (Number_of_string (TradeForm.openPrice f)) = true ->
        roi = 0).
Proof.
  intros Number_of_string f. cbn zeta. unfold TradeForm.calculatedROI. split.
  - destruct (truthy_number (TradeForm.calculatedMargin Number_of_string f))
      eqn:Htruthy; [|left; reflexivity].
    destruct (TradeForm.nonempty (TradeForm.pnlUsd f)); [|left; reflexivity].
    right. unfold truthy_number in Htruthy.
    apply andb_true_iff in Htruthy as [Hz Hn].
    apply negb_true_iff in Hz. apply negb_true_iff in Hn. auto.
  - intros Hzero.
    assert (Hfalsy : truthy_number
                       (TradeForm.calculatedMargin Number_of_string f) = false).
    { unfold TradeForm.calculatedMargin.
      destruct (TradeForm.nonempty (TradeForm.volumeLot f)
                && TradeForm.nonempty (TradeForm.openPrice f));
        [apply zero_factor_falsy; exact Hzero|reflexivity]. }
    rewrite Hfalsy. reflexivity.
Qed.

(** Volume "0" at price 1900 with a P&L of 50: margin 0, ROI 0. *)
Lemma form_roi_guarded_witness :
  TradeForm.calculatedROI
    (fun s => if String.eqb s "0" then 0 else if String.eqb s "50" then 50 else 1900)
    (TradeForm.mkFormState "XAUUSD" "Buy" "0" "1900" "" "" "" "" "" "" "Other"
       "50" "" false false None) = 0.
Proof.
  apply (proj2 (form_roi_guarded
           (fun s => if String.eqb s "0" then 0
                     else if String.eqb s "50" then 50 else 1900)
           (TradeForm.mkFormState "XAUUSD" "Buy" "0" "1900" "" "" "" "" "" ""
              "Other" "50" "" false false None))).
  left. reflexivity.
Defined.

Lemma tradeOf_side (Number_of_string : string -> float) (trim : string -> string)
      (sessionId : string) (f : TradeForm.FormState) :
  let t := TradeForm.asTrade (TradeForm.tradeOf Number_of_string trim sessionId f) in
  (isLong t = true /\ isShort t = false /\ TradeForm.type f = "Buy"%string)
  \/ (isLong t = false /\ isShort t = true /\ TradeForm.type f <> "Buy"%string).
Proof.
  cbn zeta. unfold isLong, isShort, TradeForm.asTrade, TradeForm.tradeOf.
  cbn [entry_side TradeForm.nt_entry_side].
  destruct (String.eqb_spec (TradeForm.type f) "Buy"); [left|right]; auto.
Qed.

(** X15. Every trade the form builds is Long or Short: Long exactly when the
    type field is "Buy", Short for any other text.  Hence on a journal made
    of trades built by the form, longTrades + shortTrades equals
    totalTrades. *)
Theorem form_trades_have_a_side :
  forall (Number_of_string : string -> float) (trim : string -> string)
         (Math_pow : float -> float -> float) (sessions : list TradingSession)
         (sessionId : string),
    (forall f : TradeForm.FormState,
        let t := TradeForm.tradeOf Number_of_string trim sessionId f in
        (TradeForm.nt_entry_side t = "Long"%string
         <-> TradeForm.type f = "Buy"%string)
        /\ (TradeForm.nt_entry_side t = "Short"%string
            <-> TradeForm.type f <> "Buy"%string))
    /\ (forall forms : list TradeForm.FormState,
           let journal :=
             map (fun f => TradeForm.asTrade
                             (TradeForm.tradeOf Number_of_string trim sessionId f))
                 forms in
           let r := calculateUserAnalytics Math_pow sessions journal in
           (longTrades r + shortTrades r)%nat = totalTrades r).
Proof.
  intros Number_of_string trim Math_pow sessions sessionId. split.
  - intros f. cbn zeta. unfold TradeForm.tradeOf. cbn [TradeForm.nt_entry_side].
    destruct (String.eqb_spec (TradeForm.type f) "Buy"); split; split;
      intros H; try reflexivity; try assumption; try discriminate; contradiction.
  - intros forms. cbn zeta.
    rewrite longTrades_is_count, shortTrades_is_count, totalTrades_is_length.
    induction forms as [|f rest IH]; [reflexivity|].
    cbn [map Spec.count length].
    destruct (tradeOf_side Number_of_string trim sessionId f)
      as [(-> & -> & _) | (-> & -> & _)]; simpl; lia.
Qed.

(** X16. A submission is refused exactly when one of symbol, type, volume,
    open price or P&L is empty, and then nothing is sent and the form is
    untouched.  When [onAddTrade] fails the inputs are kept as typed; only
    after it succeeds are they cleared (reason back to "Other").  In both
    cases the loading flag ends off. *)
Theorem form_kept_unless_added :
  forall (Number_of_string : string -> float) (trim : string -> string)
         (sessionId : string) (onAddTrade : TradeForm.NewTrade -> Attempt unit)
         (f : TradeForm.FormState),
    let result :=
      TradeForm.handleSubmit Number_of_string trim sessionId onAddTrade f in
    let trade := TradeForm.tradeOf Number_of_string trim sessionId f in
    (TradeForm.sent result = None
     <-> (TradeForm.symbol f = "" \/ TradeForm.type f = ""
          \/ TradeForm.volumeLot f = "" \/ TradeForm.openPrice f = ""
          \/ TradeForm.pnlUsd f = "")%string)
    /\ (TradeForm.sent result = None ->
        TradeForm.form_after result = f
        /\ TradeForm.toast result
           = TradeForm.ToastError "Please fill in all required fields")
    /\ (TradeForm.sent result <> None ->
        forall e, onAddTrade trade = Rejected e ->
        TradeForm.form_after result = TradeForm.setLoading false f
        /\ TradeForm.toast result = TradeForm.ToastError "Failed to add trade")
    /\ (TradeForm.sent result <> None ->
        forall u, onAddTrade trade = Resolved u ->
        TradeForm.form_after result
        = TradeForm.setLoading false (TradeForm.clearForm f)
        /\ TradeForm.toast result
           = TradeForm.ToastSuccess "Trade added successfully").
Proof.
  intros Number_of_string trim sessionId onAddTrade f. cbn zeta.
  unfold TradeForm.handleSubmit.
  destruct (TradeForm.nonempty (TradeForm.symbol f)) eqn:Hs;
    destruct (TradeForm.nonempty (TradeForm.type f)) eqn:Ht;
    destruct (TradeForm.nonempty (TradeForm.volumeLot f)) eqn:Hv;
    destruct (TradeForm.nonempty (TradeForm.openPrice f)) eqn:Ho;
    destruct (TradeForm.nonempty (TradeForm.pnlUsd f)) eqn:Hp;
    cbn [negb orb];
    try (apply nonempty_true in Hs); try (apply nonempty_true in Ht);
    try (apply nonempty_true in Hv); try (apply nonempty_true in Ho);
    try (apply nonempty_true in Hp);
    try (apply not_true_iff_false in Hs; rewrite nonempty_true in Hs);
    try (apply not_true_iff_false in Ht; rewrite nonempty_true in Ht);
    try (apply not_true_iff_false in Hv; rewrite nonempty_true in Hv);
    try (apply not_true_iff_false in Ho; rewrite nonempty_true in Ho);
    try (apply not_true_iff_false in Hp; rewrite nonempty_true in Hp).
  1: { destruct (onAddTrade _) as [u|e] eqn:Hadd; cbn;
       (split; [split; [discriminate|tauto]|]);
       (split; [discriminate|]); split; intros _ x Hx; try discriminate Hx;
       split; reflexivity. }
  all: cbn; (split; [split; [intros _|reflexivity]|]);
    [ | split; [intros _; split; reflexivity|split; intros H; contradiction H; reflexivity] ].
  all: repeat match goal with
       | H : ~ (?s <> ""%string) |- _ =>
           let E := fresh in
           destruct (String.eqb_spec s "") as [E|E]; [clear H|contradiction (H E)]
       end; tauto.
Qed.

(** A complete form whose trade the service refuses: the inputs stay. *)
Lemma form_kept_unless_added_witness :
  TradeForm.form_after
    (TradeForm.handleSubmit (fun _ => 1) (fun s => s) "s1"
       (fun _ => Rejected (ErrorWith "offline"))
       (TradeForm.mkFormState "XAUUSD" "Buy" "1" "1900" "" "" "" "" "" ""
          "Other" "50" "" false false None))
  = TradeForm.setLoading false
      (TradeForm.mkFormState "XAUUSD" "Buy" "1" "1900" "" "" "" "" "" ""
         "Other" "50" "" false false None)
  /\ TradeForm.toast
       (TradeForm.handleSubmit (fun _ => 1) (fun s => s) "s1"
          (fun _ => Rejected (ErrorWith "offline"))
          (TradeForm.mkFormState "XAUUSD" "Buy" "1" "1900" "" "" "" "" "" ""
             "Other" "50" "" false false None))
     = TradeForm.ToastError "Failed to add trade".
Proof.
  apply (proj1 (proj2 (proj2 (form_kept_unless_added (fun _ => 1) (fun s => s)
           "s1" (fun _ => Rejected (ErrorWith "offline"))
           (TradeForm.mkFormState "XAUUSD" "Buy" "1" "1900" "" "" "" "" "" ""
              "Other" "50" "" false false None))))
         ltac:(discriminate) (ErrorWith "offline") eq_refl).
Defined.

(** ** The extraction service *)

Lemma extraction_error_is_fixed (fetch : Attempt Gemini.HttpResponse)
      (JSON_parse : string -> Attempt Gemini.ExtractedTradeData)
      (api_error : nat -> string) (e : Thrown) :
  Gemini.extractTradeDataFromImage fetch JSON_parse api_error = Rejected e ->
  e = ErrorWith Gemini.extraction_failed.
Proof.
  unfold Gemini.extractTradeDataFromImage.
  destruct (Gemini.extract_attempt fetch JSON_parse api_error);
    [discriminate|]. intros [= <-]. reflexivity.
Qed.

Lemma extraction_resolved_is_validated (fetch : Attempt Gemini.HttpResponse)
      (JSON_parse : string -> Attempt Gemini.ExtractedTradeData)
      (api_error : nat -> string) (data : Gemini.ExtractedTradeData) :
  Gemini.extractTradeDataFromImage fetch JSON_parse api_error = Resolved data ->
  truthy_string (Gemini.symbol data) = true
  /\ truthy_string (Gemini.type data) = true
  /\ Gemini.truthy_field (Gemini.openPrice data) = true
  /\ exists response, fetch = Resolved response /\ Gemini.ok response = true.
Proof.
  unfold Gemini.extractTradeDataFromImage, Gemini.extract_attempt.
  destruct fetch as [response|e]; [|discriminate].
  destruct (Gemini.ok response) eqn:Hok; cbn [negb]; [|discriminate].
  destruct (Gemini.json response) as [body|e]; [|discriminate].
  destruct (Gemini.first_text body) as [t|]; [|discriminate].
  destruct (String.eqb t ""); [discriminate|].
  destruct (JSON_parse t) as [d|e]; [|discriminate].
  destruct (truthy_string (Gemini.symbol d)) eqn:Hs; cbn [negb orb];
    [|discriminate].
  destruct (truthy_string (Gemini.type d)) eqn:Ht; cbn [negb orb];
    [|discriminate].
  destruct (Gemini.truthy_field (Gemini.openPrice d)) eqn:Hp; cbn [negb];
    [|discriminate].
  intros [= <-]. repeat split; try assumption. exists response. auto.
Qed.

(** X17. [extractTradeDataFromImage] has one way to fail and one message for
    it, whether the request failed, the status was not ok, the body or the
    JSON could not be read, or a required field was missing.  When it
    succeeds, the status was ok and the data has a non-empty symbol and type
    and an open price that is neither missing, zero nor NaN. *)
Theorem extraction_validated_or_one_error :
  forall (fetch : Attempt Gemini.HttpResponse)
         (JSON_parse : string -> Attempt Gemini.ExtractedTradeData)
         (api_error : nat -> string),
    let outcome := Gemini.extractTradeDataFromImage fetch JSON_parse api_error in
    (forall e, outcome = Rejected e ->
               e = ErrorWith Gemini.extraction_failed)
    /\ (forall data, outcome = Resolved data ->
          (exists v, Gemini.symbol data = Some v /\ v <> ""%string)
          /\ (exists v, Gemini.type data = Some v /\ v <> ""%string)
          /\ (exists p, Gemini.openPrice data = Some p
                        /\ is_zero p = false /\ is_nan p = false)
          /\ (exists response, fetch = Resolved response
                               /\ Gemini.ok response = true)).
Proof.
  intros fetch JSON_parse api_error. cbn zeta. split.
  - intros e. apply extraction_error_is_fixed.
  - intros data Hdata.
    apply extraction_resolved_is_validated in Hdata as (Hs & Ht & Hp & Hok).
    split; [apply truthy_string_some; exact Hs|].
    split; [apply truthy_string_some; exact Ht|].
    split; [|exact Hok].
    unfold Gemini.truthy_field in Hp.
    destruct (Gemini.openPrice data) as [p|]; [|discriminate].
    exists p. unfold truthy_number in Hp.
    apply andb_true_iff in Hp as [Hz Hn].
    apply negb_true_iff in Hz. apply negb_true_iff in Hn. auto.
Qed.

(** An exchange that goes through, with an open price of 1900. *)
Lemma extraction_validated_or_one_error_witness :
  exists p,
    Gemini.openPrice
      (Gemini.mkExtractedTradeData (Some "XAUUSD"%string) (Some "Buy"%string)
         (Some 1) (Some 1900) None None None None None None None (Some 50))
    = Some p
    /\ is_zero p = false /\ is_nan p = false.
Proof.
  apply (proj2 (extraction_validated_or_one_error
           (Resolved (Gemini.mkHttpResponse true 200
              (Resolved (Gemini.mkGeminiResponse
                 (Some [Gemini.mkCandidate
                    (Some (Gemini.mkContent
                       (Some [Gemini.mkPart (Some "{...}"%string)])))])))))
           (fun _ => Resolved
              (Gemini.mkExtractedTradeData (Some "XAUUSD"%string)
                 (Some "Buy"%string) (Some 1) (Some 1900) None None None None
                 None None None (Some 50)))
           (fun _ => "Gemini API error"%string))).
  reflexivity.
Defined.

Lemma or_else_nonempty (s : option string) (fallback : string) :
  fallback <> ""%string -> or_else s fallback <> ""%string.
Proof.
  intros Hf. unfold or_else. destruct s as [v|]; [|exact Hf].
  destruct (String.eqb_spec v ""); [exact Hf|assumption].
Qed.

(** X18. [getChatResponse] always answers with a non-empty string.  It is
    the model's text exactly when the exchange went through with a non-empty
    text; an empty or missing text gives the apology, and a failed request,
    a status that is not ok or an unreadable body the apology that asks to
    try again later. *)
Theorem chat_reply_never_empty :
  forall (fetch : Attempt Gemini.HttpResponse),
    let reply := Gemini.getChatResponse fetch in
    reply <> ""%string
    /\ (forall response data t,
           fetch = Resolved response -> Gemini.ok response = true ->
           Gemini.json response = Resolved data ->
           Gemini.first_text data = Some t -> t <> ""%string -> reply = t)
    /\ (forall response data,
           fetch = Resolved response -> Gemini.ok response = true ->
           Gemini.json response = Resolved data ->
           (Gemini.first_text data = None
            \/ Gemini.first_text data = Some ""%string) ->
           reply = Gemini.no_answer)
    /\ ((forall response, fetch = Resolved response ->
           Gemini.ok response = false
           \/ exists e, Gemini.json response = Rejected e) ->
        reply = Gemini.no_answer_retry).
Proof.
  intros fetch. cbn zeta. unfold Gemini.getChatResponse.
  split; [|split; [|split]].
  - destruct fetch as [response|e]; [|discriminate].
    destruct (Gemini.ok response); cbn [negb]; [|discriminate].
    destruct (Gemini.json response) as [data|e]; [|discriminate].
    apply or_else_nonempty. discriminate.
  - intros response data t -> -> -> -> Hne. cbn.
    destruct (String.eqb_spec t ""); [contradiction|reflexivity].
  - intros response data -> -> -> [-> | ->]; reflexivity.
  - intros Hfail. destruct fetch as [response|e]; [|reflexivity].
    destruct (Hfail response eq_refl) as [-> | [e ->]]; [reflexivity|].
    destruct (Gemini.ok response); reflexivity.
Qed.

(** An answer whose candidate list is empty: the plain apology. *)
Lemma chat_reply_never_empty_witness :
  Gemini.getChatResponse
    (Resolved (Gemini.mkHttpResponse true 200
                 (Resolved (Gemini.mkGeminiResponse (Some [])))))
  = Gemini.no_answer.
Proof.
  apply (proj1 (proj2 (proj2 (chat_reply_never_empty
           (Resolved (Gemini.mkHttpResponse true 200
                        (Resolved (Gemini.mkGeminiResponse (Some []))))))))
         (Gemini.mkHttpResponse true 200
            (Resolved (Gemini.mkGeminiResponse (Some []))))
         (Gemini.mkGeminiResponse (Some []))
         eq_refl eq_refl eq_refl (or_introl eq_refl)).
Defined.

(** ** From the extraction to the form *)

Lemma or_else_some_nonempty (v fallback : string) :
  v <> ""%string -> or_else (Some v) fallback = v.
Proof.
  intros Hv. unfold or_else. destruct (String.eqb_spec v ""); [contradiction|].
  reflexivity.
Qed.

(** X19. Filling the form from extracted data and submitting it: with a
    non-empty symbol and type and an open price present, as the service
    guarantees, the submission passes the form's check exactly when the data
    also carries a volume and a P&L (a P&L of 0 included, since its text is
    not empty); the service itself does not require these two. *)
Theorem extracted_form_needs_volume_and_pnl :
  forall (Number_of_string : string -> float) (trim : string -> string)
         (toString : float -> string)
         (JSON_stringify : Gemini.ExtractedTradeData -> string)
         (sessionId : string) (onAddTrade : TradeForm.NewTrade -> Attempt unit)
         (data : Gemini.ExtractedTradeData) (f : TradeForm.FormState),
    (forall x, toString x <> ""%string) ->
    truthy_string (Gemini.symbol data) = true ->
    truthy_string (Gemini.type data) = true ->
    Gemini.openPrice data <> None ->
    let filled := TradeForm.handleDataExtracted toString JSON_stringify data f in
    let result :=
      TradeForm.handleSubmit Number_of_string trim sessionId onAddTrade filled in
    TradeForm.sent result <> None
    <-> (Gemini.volumeLot data <> None /\ Gemini.pnlUsd data <> None).
Proof.
  intros Number_of_string trim toString JSON_stringify sessionId onAddTrade
         data f Hstr Hs Ht Hp. cbn zeta.
  apply truthy_string_some in Hs as (s & Hs & Hsne).
  apply truthy_string_some in Ht as (t & Ht & Htne).
  destruct (Gemini.openPrice data) as [p|] eqn:Hprice; [clear Hp|contradiction].
  unfold TradeForm.handleSubmit, TradeForm.handleDataExtracted.
  cbn [TradeForm.symbol TradeForm.type TradeForm.volumeLot TradeForm.openPrice
       TradeForm.pnlUsd].
  rewrite Hs, Ht, Hprice. unfold TradeForm.number_text. cbn [option_map].
  rewrite (or_else_some_nonempty _ Hsne), (or_else_some_nonempty _ Htne).
  rewrite (or_else_some_nonempty _ (Hstr p)).
  rewrite (proj2 (nonempty_true s) Hsne), (proj2 (nonempty_true t) Htne).
  rewrite (proj2 (nonempty_true (toString p)) (Hstr p)). cbn [negb orb].
  destruct (Gemini.volumeLot data) as [v|]; cbn [option_map].
  - rewrite (or_else_some_nonempty _ (Hstr v)).
    rewrite (proj2 (nonempty_true (toString v)) (Hstr v)). cbn [negb orb].
    destruct (Gemini.pnlUsd data) as [q|]; cbn [option_map].
    + rewrite (or_else_some_nonempty _ (Hstr q)).
      rewrite (proj2 (nonempty_true (toString q)) (Hstr q)). cbn [negb].
      destruct (onAddTrade _); cbn; split; intros; try split; discriminate.
    + cbn. split; [intros H; contradiction H; reflexivity|].
      intros [_ H]. contradiction H. reflexivity.
  - cbn. split; [intros H; contradiction H; reflexivity|].
    intros [H _]. contradiction H. reflexivity.
Qed.

(** Extracted data with a P&L of 0: the form is complete and the trade is
    sent. *)
Lemma extracted_form_needs_volume_and_pnl_witness :
  TradeForm.sent
    (TradeForm.handleSubmit (fun _ => 1) (fun s => s) "s1" (fun _ => Resolved tt)
       (TradeForm.handleDataExtracted (fun _ => "0"%string) (fun _ => "{}"%string)
          (Gemini.mkExtractedTradeData (Some "XAUUSD"%string) (Some "Buy"%string)
             (Some 1) (Some 1900) None None None None None None None (Some 0))
          (TradeForm.mkFormState "" "" "" "" "" "" "" "" "" "" "Other" "" ""
             false true None)))
  <> None.
Proof.
  apply (proj2 (@extracted_form_needs_volume_and_pnl (fun _ => 1) (fun s => s)
           (fun _ => "0"%string) (fun _ => "{}"%string) "s1"
           (fun _ => Resolved tt)
           (Gemini.mkExtractedTradeData (Some "XAUUSD"%string) (Some "Buy"%string)
              (Some 1) (Some 1900) None None None None None None None (Some 0))
           (TradeForm.mkFormState "" "" "" "" "" "" "" "" "" "" "Other" "" ""
              false true None)
           ltac:(discriminate) eq_refl eq_refl ltac:(discriminate)));
    split; discriminate.
Defined.

(** ** The upload zone *)

(** X20. A file reaches the extraction service only if its type starts with
    "image/" and its size is at most 10 * 1024 * 1024 bytes (a file of
    exactly that size passes, although the message says "less than").  A
    refused file changes nothing but the status, which becomes error: the
    name and preview shown stay those of the previous file.  An accepted
    file gives its name to the state and leaves the processing flag off;
    the service is not called only when the file cannot be read.  Data is
    passed to [onDataExtracted] exactly when the service resolved with it,
    and the status ends as success exactly when the callback was then called
    and returned: if it throws, the data has been passed and the status is
    error. *)
Theorem upload_gate :
  forall (readAsDataURL : Upload.File -> option string)
         (extract : option string -> Attempt Gemini.ExtractedTradeData)
         (onDataExtracted : Gemini.ExtractedTradeData -> Attempt unit)
         (file : Upload.File) (st : Upload.UploadState),
    let r := Upload.handleFile readAsDataURL extract onDataExtracted file st in
    (Upload.requested r <> None ->
     String.prefix "image/" (Upload.type file) = true
     /\ (Upload.size file <= 10485760)%N)
    /\ (String.prefix "image/" (Upload.type file) = false
        \/ (10485760 < Upload.size file)%N ->
        Upload.state_after r = Upload.setExtractionStatus Upload.error st
        /\ Upload.requested r = None /\ Upload.extracted r = None)
    /\ (String.prefix "image/" (Upload.type file) = true ->
        (Upload.size file <= 10485760)%N ->
        Upload.fileName (Upload.state_after r) = Upload.name file
        /\ Upload.isProcessing (Upload.state_after r) = false
        /\ (Upload.requested r = None <-> readAsDataURL file = None))
    /\ (forall data,
           Upload.extracted r = Some data
           <-> exists base64, Upload.requested r = Some base64
                              /\ extract base64 = Resolved data)
    /\ (Upload.extractionStatus (Upload.state_after r) = Upload.success
        <-> exists data u, Upload.extracted r = Some data
                           /\ onDataExtracted data = Resolved u)
    /\ (forall data e,
           Upload.extracted r = Some data -> onDataExtracted data = Rejected e ->
           Upload.extractionStatus (Upload.state_after r) = Upload.error).
Proof.
  intros readAsDataURL extract onDataExtracted file st. cbn zeta.
  unfold Upload.handleFile.
  change (10 * 1024 * 1024)%N with 10485760%N.
  destruct (String.prefix "image/" (Upload.type file)) eqn:Htype; cbn [negb].
  2: { cbn. split; [intros H; contradiction H; reflexivity|].
       split; [auto|]. split; [discriminate|].
       split; [intros data; split; [discriminate|intros (b & Hb & _); discriminate]|].
       split; [split; [discriminate|intros (d & u & Hd & _); discriminate]|].
       discriminate. }
  destruct (N.ltb_spec 10485760 (Upload.size file)) as [Hbig | Hok].
  { cbn. split; [intros H; contradiction H; reflexivity|].
    split; [auto|]. split; [intros _ Hle; lia|].
    split; [intros data; split; [discriminate|intros (b & Hb & _); discriminate]|].
    split; [split; [discriminate|intros (d & u & Hd & _); discriminate]|].
    discriminate. }
  unfold Upload.convertFileToBase64.
  destruct (readAsDataURL file) as [url|] eqn:Hread.
  - destruct (extract (Upload.split_second "," url)) as [data|e] eqn:Hext.
    + destruct (onDataExtracted data) as [u|e] eqn:Hcall; cbn.
      * split; [auto|]. split; [intros [H|H]; [discriminate|lia]|].
        split; [intros _ _; repeat split; discriminate|].
        split; [intros d; split;
                [intros [= <-]; eauto
                |intros (b & [= <-] & Hb); congruence]|].
        split; [split; [intros _; eauto|reflexivity]|].
        intros d e' [= <-] He'. congruence.
      * split; [auto|]. split; [intros [H|H]; [discriminate|lia]|].
        split; [intros _ _; repeat split; discriminate|].
        split; [intros d; split;
                [intros [= <-]; eauto
                |intros (b & [= <-] & Hb); congruence]|].
        split; [split; [discriminate
                       |intros (d & u & [= <-] & Hu); congruence]|].
        reflexivity.
    + cbn. split; [auto|]. split; [intros [H|H]; [discriminate|lia]|].
      split; [intros _ _; repeat split; discriminate|].
      split; [intros d; split;
              [discriminate|intros (b & [= <-] & Hb); congruence]|].
      split; [split; [discriminate|intros (d & u & Hd & _); discriminate]|].
      discriminate.
  - cbn. split; [auto|]. split; [intros [H|H]; [discriminate|lia]|].
    split; [intros _ _; repeat split; reflexivity|].
    split; [intros d; split; [discriminate|intros (b & Hb & _); discriminate]|].
    split; [split; [discriminate|intros (d & u & Hd & _); discriminate]|].
    discriminate.
Qed.

(** A PNG of exactly 10 * 1024 * 1024 bytes is sent to the service. *)
Lemma upload_gate_witness :
  Upload.requested
    (Upload.handleFile (fun _ => Some "data:image/png;base64,AAAA"%string)
       (fun _ => Rejected (ErrorWith "no trade")) (fun _ => Resolved tt)
       (Upload.mkFile "shot.png" "image/png" 10485760)
       (Upload.mkUploadState None "" Upload.idle false))
  = Some (Some "AAAA"%string)
  /\ Upload.fileName
       (Upload.state_after
          (Upload.handleFile (fun _ => Some "data:image/png;base64,AAAA"%string)
             (fun _ => Rejected (ErrorWith "no trade")) (fun _ => Resolved tt)
             (Upload.mkFile "shot.png" "image/png" 10485760)
             (Upload.mkUploadState None "" Upload.idle false)))
     = "shot.png"%string.
Proof.
  split; [reflexivity|].
  apply (proj1 (proj2 (proj2 (upload_gate
           (fun _ => Some "data:image/png;base64,AAAA"%string)
           (fun _ => Rejected (ErrorWith "no trade")) (fun _ => Resolved tt)
           (Upload.mkFile "shot.png" "image/png" 10485760)
           (Upload.mkUploadState None "" Upload.idle false))))).
  - reflexivity.
  - vm_compute. discriminate.
Defined.

(** X21. With the extraction service behind it, the upload zone shows one of
    five toasts: the success toast, the two refusals of the file, the
    service's single error message, or "Failed to extract trade data" when
    the file could not be read; the only other toast is the message of an
    Error thrown by [onDataExtracted] itself, after the data was passed to
    it.  The data passed on always has a non-empty symbol and type and an
    open price that is neither missing, zero nor NaN. *)
Theorem upload_with_service :
  forall (readAsDataURL : Upload.File -> option string)
         (fetch : option string -> Attempt Gemini.HttpResponse)
         (JSON_parse : string -> Attempt Gemini.ExtractedTradeData)
         (api_error : nat -> string)
         (onDataExtracted : Gemini.ExtractedTradeData -> Attempt unit)
         (file : Upload.File) (st : Upload.UploadState),
    let service := fun base64 =>
      Gemini.extractTradeDataFromImage (fetch base64) JSON_parse api_error in
    let r := Upload.handleFile readAsDataURL service onDataExtracted file st in
    let usual :=
      [TradeForm.ToastSuccess "Trade data extracted successfully!";
       TradeForm.ToastError "Please select an image file (PNG, JPG, JPEG)";
       TradeForm.ToastError "File size must be less than 10MB";
       TradeForm.ToastError Gemini.extraction_failed;
       TradeForm.ToastError "Failed to extract trade data"] in
    (In (Upload.toast r) usual
     \/ exists data message,
          Upload.extracted r = Some data
          /\ onDataExtracted data = Rejected (ErrorWith message)
          /\ Upload.toast r = TradeForm.ToastError message)
    /\ ((forall data message,
            onDataExtracted data <> Rejected (ErrorWith message)) ->
        In (Upload.toast r) usual)
    /\ (forall data, Upload.extracted r = Some data ->
          truthy_string (Gemini.symbol data) = true
          /\ truthy_string (Gemini.type data) = true
          /\ Gemini.truthy_field (Gemini.openPrice data) = true).
Proof.
  intros readAsDataURL fetch JSON_parse api_error onDataExtracted file st.
  cbn zeta.
  assert (Hmain :
    (In (Upload.toast (Upload.handleFile readAsDataURL
           (fun base64 => Gemini.extractTradeDataFromImage (fetch base64)
                            JSON_parse api_error) onDataExtracted file st))
        [TradeForm.ToastSuccess "Trade data extracted successfully!";
         TradeForm.ToastError "Please select an image file (PNG, JPG, JPEG)";
         TradeForm.ToastError "File size must be less than 10MB";
         TradeForm.ToastError Gemini.extraction_failed;
         TradeForm.ToastError "Failed to extract trade data"]
     \/ exists data message,
          Upload.extracted (Upload.handleFile readAsDataURL
             (fun base64 => Gemini.extractTradeDataFromImage (fetch base64)
                              JSON_parse api_error) onDataExtracted file st)
          = Some data
          /\ onDataExtracted data = Rejected (ErrorWith message)
          /\ Upload.toast (Upload.handleFile readAsDataURL
                (fun base64 => Gemini.extractTradeDataFromImage (fetch base64)
                                 JSON_parse api_error) onDataExtracted file st)
             = TradeForm.ToastError message)
    /\ (forall data,
          Upload.extracted (Upload.handleFile readAsDataURL
             (fun base64 => Gemini.extractTradeDataFromImage (fetch base64)
                              JSON_parse api_error) onDataExtracted file st)
          = Some data ->
          truthy_string (Gemini.symbol data) = true
          /\ truthy_string (Gemini.type data) = true
          /\ Gemini.truthy_field (Gemini.openPrice data) = true)).
  { unfold Upload.handleFile.
    destruct (String.prefix "image/" (Upload.type file)); cbn [negb];
      [|split; [left; cbn; tauto|discriminate]].
    destruct (N.ltb (10 * 1024 * 1024) (Upload.size file));
      [split; [left; cbn; tauto|discriminate]|].
    unfold Upload.convertFileToBase64.
    destruct (readAsDataURL file) as [url|];
      [|split; [left; cbn; tauto|discriminate]].
    destruct (Gemini.extractTradeDataFromImage
                (fetch (Upload.split_second "," url)) JSON_parse api_error)
      as [data|e] eqn:Hservice.
    - apply extraction_resolved_is_validated in Hservice as (Hs & Ht & Hp & _).
      destruct (onDataExtracted data) as [u|[message|]] eqn:Hcall; cbn.
      + split; [left; tauto|]. intros d [= <-]. auto.
      + split; [right; exists data, message; auto|]. intros d [= <-]. auto.
      + split; [left; tauto|]. intros d [= <-]. auto.
    - apply extraction_error_is_fixed in Hservice as ->.
      split; [left; cbn; tauto|discriminate]. }
  destruct Hmain as [Htoast Hdata].
  split; [exact Htoast|]. split; [|exact Hdata].
  intros Hquiet. destruct Htoast as [Hin | (data & message & _ & Hthrow & _)];
    [exact Hin|]. exfalso. exact (Hquiet data message Hthrow).
Qed.

(** An image whose analysis goes through: the data passed on is validated. *)
Lemma upload_with_service_witness :
  truthy_string (Gemini.symbol
    (Gemini.mkExtractedTradeData (Some "XAUUSD"%string) (Some "Buy"%string)
       (Some 1) (Some 1900) None None None None None None None (Some 50))) = true
  /\ truthy_string (Gemini.type
       (Gemini.mkExtractedTradeData (Some "XAUUSD"%string) (Some "Buy"%string)
          (Some 1) (Some 1900) None None None None None None None (Some 50))) = true
  /\ Gemini.truthy_field (Gemini.openPrice
       (Gemini.mkExtractedTradeData (Some "XAUUSD"%string) (Some "Buy"%string)
          (Some 1) (Some 1900) None None None None None None None (Some 50))) = true.
Proof.
  apply (proj2 (proj2 (upload_with_service
           (fun _ => Some "data:image/png;base64,AAAA"%string)
           (fun _ => Resolved (Gemini.mkHttpResponse true 200
              (Resolved (Gemini.mkGeminiResponse
                 (Some [Gemini.mkCandidate
                    (Some (Gemini.mkContent
                       (Some [Gemini.mkPart (Some "{...}"%string)])))])))))
           (fun _ => Resolved
              (Gemini.mkExtractedTradeData (Some "XAUUSD"%string)
                 (Some "Buy"%string) (Some 1) (Some 1900) None None None None
                 None None None (Some 50)))
           (fun _ => "Gemini API error"%string)
           (fun _ => Rejected (ErrorWith "form unavailable"))
           (Upload.mkFile "shot.png" "image/png" 2048)
           (Upload.mkUploadState None "" Upload.idle false)))).
  reflexivity.
Defined.

(** ** The drag highlight *)

Lemma drag_enters (n : nat) : forall st : Upload.DragState,
  (0 < n)%nat ->
  Nat.iter n (Upload.handleDragEnter true) st
  = Upload.mkDragState true (Upload.dragCounter st + Z.of_nat n)%Z.
Proof.
  induction n as [|n IH]; intros st Hn; [lia|].
  destruct n as [|n'].
  - simpl. unfold Upload.handleDragEnter. cbn. f_equal.
  - rewrite Nat.iter_succ, IH by lia.
    unfold Upload.handleDragEnter. cbn [Upload.dragCounter Upload.isDragOver].
    f_equal. lia.
Qed.

Lemma drag_leaves (k : nat) : forall (over : bool) (c : Z),
  (Z.of_nat k < c)%Z ->
  Nat.iter k Upload.handleDragLeave (Upload.mkDragState over c)
  = Upload.mkDragState over (c - Z.of_nat k)%Z.
Proof.
  induction k as [|k IH]; intros over c Hk.
  - simpl. f_equal. lia.
  - rewrite Nat.iter_succ, IH by lia.
    unfold Upload.handleDragLeave. cbn [Upload.dragCounter Upload.isDragOver].
    destruct (Z.eqb_spec (c - Z.of_nat k - 1) 0) as [Hz|Hz]; [lia|].
    f_equal. lia.
Qed.

(** X22. Drag events nest: starting from a counter of 0, after n drag-enter
    events carrying items and k <= n drag-leave events the counter is n - k
    and the zone is highlighted exactly while k < n.  The highlight goes
    off with the leave that balances the first enter, not before. *)
Theorem drag_highlight_balanced :
  forall (n k : nat) (st : Upload.DragState),
    Upload.dragCounter st = 0%Z -> (0 < n)%nat -> (k <= n)%nat ->
    let st' := Nat.iter k Upload.handleDragLeave
                 (Nat.iter n (Upload.handleDragEnter true) st) in
    Upload.dragCounter st' = (Z.of_nat n - Z.of_nat k)%Z
    /\ Upload.isDragOver st' = Nat.ltb k n.
Proof.
  intros n k st Hzero Hn Hk. cbn zeta.
  rewrite drag_enters by exact Hn. rewrite Hzero. cbn [Z.add].
  destruct (Nat.eq_dec k n) as [-> | Hne].
  - destruct n as [|n']; [lia|].
    rewrite Nat.iter_succ, drag_leaves by lia.
    unfold Upload.handleDragLeave. cbn [Upload.dragCounter Upload.isDragOver].
    replace (Z.of_nat (S n') - Z.of_nat n' - 1)%Z with 0%Z by lia.
    rewrite Nat.ltb_irrefl. split; [lia|reflexivity].
  - rewrite drag_leaves by lia. cbn [Upload.dragCounter Upload.isDragOver].
    split; [reflexivity|]. symmetry. apply Nat.ltb_lt. lia.
Qed.

(** Entering the zone and then a nested element, and leaving both. *)
Lemma drag_highlight_balanced_witness :
  Upload.dragCounter
    (Nat.iter 2 Upload.handleDragLeave
       (Nat.iter 2 (Upload.handleDragEnter true) (Upload.mkDragState false 0)))
  = (Z.of_nat 2 - Z.of_nat 2)%Z
  /\ Upload.isDragOver
       (Nat.iter 2 Upload.handleDragLeave
          (Nat.iter 2 (Upload.handleDragEnter true) (Upload.mkDragState false 0)))
     = Nat.ltb 2 2.
Proof.
  apply (@drag_highlight_balanced 2 2 (Upload.mkDragState false 0));
    [reflexivity | lia | lia].
Defined.

(** ** The largest risk *)

Lemma abs_nan_or_nonnegative (x : float) :
  is_nan (abs x) = true \/ (0 <=? abs x) = true.
Proof.
  unfold is_nan. rewrite FloatAxioms.leb_spec, FloatAxioms.eqb_spec, abs_spec.
  destruct (Prim2SF x) as [s | s | | s m e]; cbn; auto.
Qed.

Lemma nonnegative_above_neg_infinity (x : float) :
  (0 <=? x) = true -> (x >? neg_infinity) = true.
Proof.
  unfold gtb. rewrite FloatAxioms.leb_spec, FloatAxioms.ltb_spec.
  destruct (Prim2SF x) as [s | s | | s m e]; cbn; try destruct s; cbn;
    congruence.
Qed.

Lemma max_step_keeps (highest number : float) :
  (is_nan highest = true \/ (0 <=? highest) = true) ->
  (is_nan number = true \/ (0 <=? number) = true) ->
  is_nan (max_step highest number) = true
  \/ (0 <=? max_step highest number) = true.
Proof.
  intros Hh Hn. unfold max_step.
  destruct (is_nan highest) eqn:E1; [auto|].
  destruct (is_nan number) eqn:E2; [auto|].
  destruct (number >? highest); [rewrite E2; exact Hn|].
  destruct (is_pos_zero number && is_neg_zero highest);
    [rewrite E2; exact Hn|rewrite E1; exact Hh].
Qed.

Lemma Math_max_fold_keeps (values : list float) : forall highest : float,
  (is_nan highest = true \/ (0 <=? highest) = true) ->
  (forall v, In v values -> is_nan v = true \/ (0 <=? v) = true) ->
  is_nan (fold_left max_step values highest) = true
  \/ (0 <=? fold_left max_step values highest) = true.
Proof.
  induction values as [|v rest IH]; intros highest Hh Hall; [exact Hh|].
  simpl. apply IH.
  - apply max_step_keeps; [exact Hh|apply Hall; left; reflexivity].
  - intros w Hw. apply Hall. right. exact Hw.
Qed.

(** X23. maxRisk is never negative and never the -Infinity that
    [Math.max()] gives for no argument: on every journal, the empty one
    included, it is either NaN or a number that is not below zero. *)
Theorem maxRisk_never_negative :
  forall (Math_pow : float -> float -> float) (sessions : list TradingSession)
         (trades : list Trade),
    let r := calculateUserAnalytics Math_pow sessions trades in
    (is_nan (maxRisk r) = true \/ (0 <=? maxRisk r) = true)
    /\ maxRisk r <> neg_infinity.
Proof.
  intros Math_pow sessions trades. cbn zeta.
  assert (H : is_nan (maxRisk (calculateUserAnalytics Math_pow sessions trades)) = true
              \/ (0 <=? maxRisk (calculateUserAnalytics Math_pow sessions trades)) = true).
  { destruct trades as [|trade rest]; [right; reflexivity|].
    unfold calculateUserAnalytics. cbn [length Nat.eqb maxRisk].
    unfold Math_max, Math_abs. cbn [map fold_left].
    apply Math_max_fold_keeps.
    - pose proof (abs_nan_or_nonnegative (profit_loss trade)) as Habs.
      unfold max_step. change (is_nan neg_infinity) with false. cbn iota.
      destruct (is_nan (abs (profit_loss trade))) eqn:E; [auto|].
      destruct Habs as [Habs | Habs]; [discriminate|].
      rewrite (nonnegative_above_neg_infinity Habs), E. auto.
    - intros v Hv. apply in_map_iff in Hv as (t & <- & _).
      apply abs_nan_or_nonnegative. }
  split; [exact H|].
  intros Heq. rewrite Heq in H. destruct H as [H | H]; vm_compute in H;
    discriminate H.
Qed.
